(** * M365 user onboarding: a shallow embedding of
      [src/m365_automation/user_onboarding.py]

    The development follows the Python module function by function.
    Text is modelled as [string] (bytes); the case and white-space
    functions act on the ASCII range, which covers the tier names, the
    password alphabet and the separators the module uses.  Values read
    from a CSV row are text or Python's [None] (what [csv.DictReader] puts
    in the cells a short row lacks).  Remote Graph calls are answered by an
    arbitrary client that sees the history of calls and delays so far; the
    history records every remote call together with how it ended, and
    every [asyncio.sleep].  Log output is not modelled. *)

From Stdlib Require Import Ascii String Arith Lia Bool.
From stdpp Require Import gmap strings list.

Local Open Scope string_scope.
Local Open Scope nat_scope.

#[local] Set Warnings "-clear-no-such-hyp".

(** ** Text *)

Module Text.

Definition code (c : ascii) : nat := nat_of_ascii c.

Definition islower (c : ascii) : bool := (97 <=? code c) && (code c <=? 122).
Definition isupper (c : ascii) : bool := (65 <=? code c) && (code c <=? 90).
Definition isdigit (c : ascii) : bool := (48 <=? code c) && (code c <=? 57).

(** [str.isspace] on the ASCII range: TAB..CR, FS..US and the blank. *)
Definition isspace (c : ascii) : bool :=
((9 <=? code c) && (code c <=? 13)) || ((28 <=? code c) && (code c <=? 32)).

Definition upper_char (c : ascii) : ascii :=
if islower c then ascii_of_nat (code c - 32) else c.

Definition lower_char (c : ascii) : ascii :=
if isupper c then ascii_of_nat (code c + 32) else c.

Fixpoint map_chars (f : ascii -> ascii) (s : string) : string :=
match s with
| EmptyString => EmptyString
| String c s' => String (f c) (map_chars f s')
end.

(** [s.upper()] and [s.lower()] *)
Definition upper : string -> string := map_chars upper_char.
Definition lower : string -> string := map_chars lower_char.

(** [any(p(c) for c in s)] *)
Fixpoint any (p : ascii -> bool) (s : string) : bool :=
match s with
| EmptyString => false
| String c s' => p c || any p s'
end.

(** [all(p(c) for c in s)], used in statements only. *)
Fixpoint all (p : ascii -> bool) (s : string) : bool :=
match s with
| EmptyString => true
| String c s' => p c && all p s'
end.

(** [c in s] for a single character [c] *)
Definition has_char (c : ascii) (s : string) : bool :=
any (fun d => Ascii.eqb c d) s.

(** [needle in hay] *)
Fixpoint contains (needle hay : string) : bool :=
String.prefix needle hay ||
match hay with
| EmptyString => false
| String _ hay' => contains needle hay'
end.

Fixpoint lstrip (s : string) : string :=
match s with
| EmptyString => EmptyString
| String c s' => if isspace c then lstrip s' else s
end.

Fixpoint rstrip (s : string) : string :=
match s with
| EmptyString => EmptyString
| String c s' =>
    match rstrip s' with
    | EmptyString => if isspace c then EmptyString else String c EmptyString
    | r => String c r
    end
end.

(** [s.strip()] *)
Definition strip (s : string) : string := rstrip (lstrip s).

(** [s.split(sep)] for a one-character separator: never the empty list. *)
Fixpoint split (sep : ascii) (s : string) : list string :=
match s with
| EmptyString => [EmptyString]
| String c s' =>
    if Ascii.eqb c sep then EmptyString :: split sep s'
    else match split sep s' with
         | h :: t => String c h :: t
         | [] => [String c EmptyString]
         end
end.

(** [sep.join(parts)] *)
Fixpoint join (sep : string) (parts : list string) : string :=
match parts with
| [] => EmptyString
| [p] => p
| p :: rest => p +:+ sep +:+ join sep rest
end.

(** [s[i]], with the blank standing for an index out of range (the module
  only indexes below the length). *)
Fixpoint char_at (i : nat) (s : string) : ascii :=
match s, i with
| EmptyString, _ => " "%char
| String c _, O => c
| String _ s', S i' => char_at i' s'
end.

(** [s.split(sep)[0]] *)
Fixpoint before (sep : ascii) (s : string) : string :=
match s with
| EmptyString => EmptyString
| String c s' => if Ascii.eqb c sep then EmptyString else String c (before sep s')
end.

End Text.

(** ** Python values a CSV cell can hold *)

Inductive pyval :=
| PyNone
| PyStr (s : string).

#[global] Instance pyval_eq_dec : EqDecision pyval.
Proof. solve_decision. Defined.

(** Truth value: [None] and the empty text are false. *)
Definition truthy (v : pyval) : bool :=
  match v with
  | PyNone => false
  | PyStr s => negb (String.eqb s "")
  end.

(** [str(v)], as an f-string formats it. *)
Definition str (v : pyval) : string :=
  match v with
  | PyNone => "None"
  | PyStr s => s
  end.

(** [d.get(k)] and [d.get(k, dflt)] on a row. *)
Definition dict_get (d : gmap string pyval) (k : string) : pyval :=
  default PyNone (d !! k).
Definition dict_get_default (d : gmap string pyval) (k : string) (dflt : pyval) : pyval :=
  default dflt (d !! k).

(** ** Exceptions *)

(** The exceptions the module tells apart, each with the text the code
    reads from it: for an [APIError] that is [str(e.message)], which is
    "None" when the attribute holds [None]. *)
Inductive exn :=
| APIError (message : string)
| RuntimeError (message : string)
| AttributeError (message : string)
| KeyError (key : string)
| OtherError (message : string).

Definition is_APIError (e : exn) : bool :=
  match e with APIError _ => true | _ => false end.

Inductive outcome (A : Type) :=
| Ok (a : A)
| Err (e : exn).
Arguments Ok {A} a.
Arguments Err {A} e.

(** ** SKU resolver *)

(** [LICENSE_SKU_MAPPING], keys in source order. *)
Definition LICENSE_SKU_MAPPING : list (string * option string) :=
  [ ("E3", Some "SPE_E3");
    ("E5", Some "SPE_E5");
    ("INTUNE", Some "INTUNE_A_D");
    ("NONE", None) ].

Fixpoint assoc {V : Type} (k : string) (l : list (string * V)) : option V :=
  match l with
  | [] => None
  | (k', v) :: l' => if String.eqb k k' then Some v else assoc k l'
  end.

(** [k in LICENSE_SKU_MAPPING] *)
Definition in_mapping (k : string) : bool :=
  match assoc k LICENSE_SKU_MAPPING with Some _ => true | None => false end.

(** [LICENSE_SKU_MAPPING.get(k)]: [None] for a missing key and for the
    key ["NONE"], whose value is [None]. *)
Definition mapping_get (k : string) : option string :=
  match assoc k LICENSE_SKU_MAPPING with
  | Some v => v
  | None => None
  end.

(** [not self.sku_cache]: the cache is [None] or an empty dict. *)
Definition cache_unset (sku_cache : option (gmap string string)) : bool :=
  match sku_cache with
  | None => true
  | Some m => bool_decide (m = ∅)
  end.

Definition cache_get (sku_cache : option (gmap string string)) (k : string)
  : option string :=
  match sku_cache with
  | None => None
  | Some m => m !! k
  end.

Definition get_sku_id (sku_cache : option (gmap string string)) (license_type : string)
  : outcome (option string) :=
  if cache_unset sku_cache then
    Err (RuntimeError "SKU cache not initialized. Call initialize_sku_cache() first.")
  else if String.eqb (Text.upper license_type) "NONE" then Ok None
  else match mapping_get (Text.upper license_type) with
       | None => Ok None
       | Some sku_part_number =>
           match cache_get sku_cache sku_part_number with
           | None => Ok None
           | Some sku_id => if String.eqb sku_id "" then Ok None else Ok (Some sku_id)
           end
       end.

(** ** Password generation *)

Definition symbols : string := "!@#$%^&*".

(** [string.ascii_letters + string.digits + "!@#$%^&*"] *)
Definition alphabet : string :=
  "abcdefghijklmnopqrstuvwxyz" +:+ "ABCDEFGHIJKLMNOPQRSTUVWXYZ" +:+
  "0123456789" +:+ symbols.

Definition is_symbol (c : ascii) : bool := Text.has_char c symbols.

(** The complexity test of [generate_password]. *)
Definition complex_enough (password : string) : bool :=
  Text.any Text.islower password && Text.any Text.isupper password
  && Text.any Text.isdigit password && Text.any is_symbol password.

Section Random.

(** The system's entropy: the [k]-th number [secrets] draws. *)
Variable entropy : nat -> nat.

(** [secrets.choice(seq)] at draw [k]: [seq[randbelow(len(seq))]]. *)
Definition choice (seq : string) (k : nat) : ascii :=
  Text.char_at (entropy k mod String.length seq) seq.

(** [''.join(secrets.choice(alphabet) for _ in range(length))] starting
    at draw [k]. *)
Fixpoint candidate (length k : nat) : string :=
  match length with
  | O => EmptyString
  | S n => String (choice alphabet k) (candidate n (S k))
  end.

(** [generate_password(length)]: the [while True] loop, cut after [fuel]
    candidates; [None] means the loop is still running.  Returns the
    password and the number of draws used so far. *)
Fixpoint generate_password (fuel length k : nat) : option (string * nat) :=
  match fuel with
  | O => None
  | S fuel' =>
      let password := candidate length k in
      if complex_enough password then Some (password, k + length)
      else generate_password fuel' length (k + length)
  end.

End Random.

(** The default of the [length] parameter, used by [create_user]. *)
Definition default_length : nat := 16.

(** ** The Graph client and the effects of a run *)

(** The [User] object [create_user] posts. *)
Record User := {
  account_enabled : bool;
  display_name : pyval;
  given_name : pyval;
  surname : pyval;
  user_principal_name : pyval;
  mail_nickname : string;
  password : string;
  force_change_password_next_sign_in : bool;
  usage_location : string;
  department : option pyval;
  job_title : option pyval
}.

(** What the module reads of the user the service answers with. *)
Record CreatedUser := {
  id : string;
  created_display_name : pyval
}.

Inductive request :=
| UsersGet (filter : option string)
| UsersPost (new_user : User)
| AssignLicensePost (user_id sku_id : string)
| GroupsGet (filter : string)
| MembersRefPost (group_id odata_id : string)
| UserPatch (user_id time_zone : string)
| UserDelete (user_id : string).

(** A remote call with the exception it raised, if any, or a delay. *)
Inductive event :=
| Call (r : request) (raised : option exn)
| Sleep (seconds : nat).

(** The remote side: each operation answers from its arguments and the
    history so far (newest event first).  [users_get] and [groups_get]
    answer with the [value] list of the response, the empty list also
    standing for a missing response or a missing [value]: the principal
    names of the users, and the ids of the groups. *)
Record GraphServiceClient := {
  users_get : option string -> list event -> outcome (list pyval);
  users_post : User -> list event -> outcome CreatedUser;
  assign_license_post : string -> string -> list event -> outcome unit;
  groups_get : string -> list event -> outcome (list string);
  members_ref_post : string -> string -> list event -> outcome unit;
  user_patch : string -> string -> list event -> outcome unit;
  user_delete : string -> list event -> outcome unit
}.

(** The state a run threads: the history and the number of random draws. *)
Record world := {
  log : list event;
  drawn : nat
}.

Definition record (e : event) (w : world) : world :=
  {| log := e :: log w; drawn := drawn w |}.

(** How a call ends: with a value, with an exception, or not at all
    ([Loop]: the password loop outlived the fuel). *)
Inductive res (A : Type) :=
| Ret (a : A)
| Raise (e : exn)
| Loop.
Arguments Ret {A} a.
Arguments Raise {A} e.
Arguments Loop {A}.

Definition M (A : Type) : Type := world -> world * res A.

Definition ret {A} (a : A) : M A := fun w => (w, Ret a).

Definition raise {A} (e : exn) : M A := fun w => (w, Raise e).

Definition bind {A B} (m : M A) (k : A -> M B) : M B :=
  fun w =>
    match m w with
    | (w', Ret a) => k a w'
    | (w', Raise e) => (w', Raise e)
    | (w', Loop) => (w', Loop)
    end.

(** [try: m  except Exception as e: h e] *)
Definition try_except {A} (m : M A) (h : exn -> M A) : M A :=
  fun w =>
    match m w with
    | (w', Raise e) => h e w'
    | r => r
    end.

Notation "'let*' x := m 'in' k" := (bind m (fun x => k))
  (at level 10, x pattern, m at level 100, k at level 200).
Notation "m ;; k" := (bind m (fun _ => k))
  (at level 100, k at level 200, right associativity).

(** [await asyncio.sleep(seconds)] *)
Definition sleep (seconds : nat) : M unit :=
  fun w => (record (Sleep seconds) w, Ret tt).

(** A remote call: answered from the history, then recorded. *)
Definition remote {A} (r : request) (answer : list event -> outcome A) : M A :=
  fun w =>
    match answer (log w) with
    | Ok a => (record (Call r None) w, Ret a)
    | Err e => (record (Call r (Some e)) w, Raise e)
    end.

(** [str(e)] *)
Definition str_exn (e : exn) : string :=
  match e with
  | APIError m => m
  | RuntimeError m => m
  | AttributeError m => m
  | KeyError k => "'" +:+ k +:+ "'"
  | OtherError m => m
  end.

(** [d[k]] *)
Definition subscript (d : gmap string pyval) (k : string) : M pyval :=
  match d !! k with
  | Some v => ret v
  | None => raise (KeyError k)
  end.

(** A method of [str] called on a cell: [None] has no such attribute. *)
Definition as_str (method : string) (v : pyval) : M string :=
  match v with
  | PyStr s => ret s
  | PyNone =>
      raise (AttributeError
               ("'NoneType' object has no attribute '" +:+ method +:+ "'"))
  end.

(** The result dictionary of [onboard_user]. *)
Record result := {
  upn : pyval;
  success : bool;
  user_created : bool;
  license_assigned : bool;
  groups_added : gmap string bool;
  mailbox_configured : bool;
  temp_password : option string;
  errors : list string
}.

(** The dictionary [create_user] returns. *)
Record user_info := {
  info_user_id : string;
  info_upn : pyval;
  info_display_name : pyval;
  info_temp_password : string;
  info_created : bool
}.

Definition required_fields : list string :=
  ["first_name"; "last_name"; "user_principal_name"; "license_type"].

Definition max_retries : nat := 3.

Section Manager.

(** [self.client], [self.sku_cache] and the entropy behind [secrets]. *)
Variable client : GraphServiceClient.
Variable sku_cache : option (gmap string string).
Variable entropy : nat -> nat.

(** [self.generate_password()] inside a run: draws from the entropy,
    [Loop] when no candidate is accepted within the fuel. *)
Definition draw_password (fuel : nat) : M string :=
  fun w =>
    match generate_password entropy fuel default_length (drawn w) with
    | Some (password, k) => ({| log := log w; drawn := k |}, Ret password)
    | None => (w, Loop)
    end.

(** *** [validate_user_data] *)

Definition check_required (user_data : gmap string pyval) : list string :=
  flat_map
    (fun field =>
       if truthy (dict_get user_data field) then []
       else ["Missing required field: " +:+ field])
    required_fields.

Definition check_upn_format (upn : pyval) : list string :=
  match upn with
  | PyStr s =>
      if truthy upn && negb (Text.has_char "@" s)
      then ["Invalid UPN format: " +:+ s] else []
  | PyNone => []
  end.

Definition check_duplicate (upn : pyval) : M (list string) :=
  try_except
    (let* existing_upns := remote (UsersGet None) (users_get client None) in
     if bool_decide (upn ∈ existing_upns)
     then ret ["User already exists: " +:+ str upn] else ret [])
    (fun _ => ret []).

Definition check_manager (manager_email : pyval) : M (list string) :=
  if truthy manager_email then
    let filter_query := "userPrincipalName eq '" +:+ str manager_email +:+ "'" in
    try_except
      (let* manager_result :=
         remote (UsersGet (Some filter_query)) (users_get client (Some filter_query)) in
       match manager_result with
       | [] => ret ["Manager not found: " +:+ str manager_email]
       | _ => ret []
       end)
      (fun _ => ret [])
  else ret [].

Definition check_license (license_type : string) : list string :=
  if in_mapping license_type then []
  else ["Invalid license type: " +:+ license_type +:+ ". Must be one of: "
        +:+ Text.join ", " (map fst LICENSE_SKU_MAPPING)].

Definition validate_user_data (user_data : gmap string pyval)
  : M (bool * list string) :=
  let errors := check_required user_data in
  let upn := dict_get_default user_data "user_principal_name" (PyStr "") in
  let errors := (errors ++ check_upn_format upn)%list in
  let* duplicate := check_duplicate upn in
  let errors := (errors ++ duplicate)%list in
  let* manager := check_manager (dict_get user_data "manager_email") in
  let errors := (errors ++ manager)%list in
  let* license_type :=
    as_str "upper" (dict_get_default user_data "license_type" (PyStr "")) in
  let errors := (errors ++ check_license (Text.upper license_type))%list in
  ret (Nat.eqb (length errors) 0, errors).

(** *** [create_user] *)

Definition optional_field (user_data : gmap string pyval) (k : string)
  : M (option pyval) :=
  if truthy (dict_get user_data k)
  then let* v := subscript user_data k in ret (Some v)
  else ret None.

Definition create_user (fuel : nat) (user_data : gmap string pyval)
  : M (option user_info) :=
  let* upn := subscript user_data "user_principal_name" in
  try_except
    (let* temp_password := draw_password fuel in
     let* first_name := subscript user_data "first_name" in
     let* last_name := subscript user_data "last_name" in
     let display :=
       dict_get_default user_data "display_name"
         (PyStr (str first_name +:+ " " +:+ str last_name)) in
     let* given := subscript user_data "first_name" in
     let* sur := subscript user_data "last_name" in
     let* upn_text := as_str "split" upn in
     let* dept := optional_field user_data "department" in
     let* title := optional_field user_data "job_title" in
     let new_user :=
       {| account_enabled := true;
          display_name := display;
          given_name := given;
          surname := sur;
          user_principal_name := upn;
          mail_nickname := Text.before "@" upn_text;
          password := temp_password;
          force_change_password_next_sign_in := true;
          usage_location := "NL";
          department := dept;
          job_title := title |} in
     let* created_user := remote (UsersPost new_user) (users_post client new_user) in
     ret (Some {| info_user_id := id created_user;
                  info_upn := upn;
                  info_display_name := created_display_name created_user;
                  info_temp_password := temp_password;
                  info_created := true |}))
    (fun _ => ret None).

(** *** [assign_license] *)

(** The body of the [try] in the retry loop. *)
Definition assign_license_try (user_id license_type : string) : M bool :=
  match get_sku_id sku_cache license_type with
  | Err e => raise e
  | Ok None => ret false
  | Ok (Some sku_id) =>
      if String.eqb sku_id "" then ret false
      else remote (AssignLicensePost user_id sku_id)
                  (assign_license_post client user_id sku_id) ;;
           ret true
  end.

(** [for attempt in range(max_retries)], with the current [retry_delay];
    falling out of the loop returns [False]. *)
Fixpoint assign_license_loop (user_id license_type : string)
    (attempts : list nat) (retry_delay : nat) : M bool :=
  match attempts with
  | [] => ret false
  | attempt :: rest =>
      try_except
        (assign_license_try user_id license_type)
        (fun e =>
           if is_APIError e then
             if attempt <? max_retries - 1 then
               sleep retry_delay ;;
               assign_license_loop user_id license_type rest (retry_delay * 2)
             else ret false
           else ret false)
  end.

Definition assign_license (user_id license_type : string) (upn : pyval) : M bool :=
  if String.eqb (Text.upper license_type) "NONE" then ret true
  else assign_license_loop user_id license_type (seq 0 max_retries) 2.

(** *** [add_to_groups] *)

(** [f"displayName eq '{group_name}'"] *)
Definition display_name_filter (group_name : string) : string :=
  "displayName eq '" +:+ group_name +:+ "'".

(** One turn of the loop over [group_names]: every path stores a
    verdict under [group_name]. *)
Definition add_to_group (user_id group_name : string) (results : gmap string bool)
  : M (gmap string bool) :=
  try_except
    (let filter_query := display_name_filter group_name in
     let* groups_result :=
       remote (GroupsGet filter_query) (groups_get client filter_query) in
     match groups_result with
     | [] => ret (<[group_name := false]> results)
     | group_id :: _ =>
         let odata_id :=
           "https://graph.microsoft.com/v1.0/directoryObjects/" +:+ user_id in
         remote (MembersRefPost group_id odata_id)
                (members_ref_post client group_id odata_id) ;;
         ret (<[group_name := true]> results)
     end)
    (fun e =>
       match e with
       | APIError message =>
           if Text.contains "already exist" (Text.lower message)
           then ret (<[group_name := true]> results)
           else ret (<[group_name := false]> results)
       | _ => ret (<[group_name := false]> results)
       end).

Fixpoint add_to_groups_loop (user_id : string) (group_names : list string)
    (results : gmap string bool) : M (gmap string bool) :=
  match group_names with
  | [] => ret results
  | group_name :: rest =>
      let* results := add_to_group user_id group_name results in
      add_to_groups_loop user_id rest results
  end.

Definition add_to_groups (user_id : string) (group_names : list string) (upn : pyval)
  : M (gmap string bool) :=
  match group_names with
  | [] => ret ∅
  | _ => add_to_groups_loop user_id group_names ∅
  end.

(** *** [configure_mailbox] and [rollback_user_creation] *)

Definition configure_mailbox (user_id license_type : string) (upn : pyval)
    (delegation_email : pyval) : M bool :=
  try_except
    (remote (UserPatch user_id "W. Europe Standard Time")
            (user_patch client user_id "W. Europe Standard Time") ;;
     ret true)
    (fun _ => ret false).

Definition rollback_user_creation (user_id : string) (upn : pyval) : M unit :=
  try_except
    (remote (UserDelete user_id) (user_delete client user_id))
    (fun _ => ret tt).

(** *** [onboard_user] *)

Definition initial_result (upn : pyval) : result :=
  {| upn := upn; success := false; user_created := false;
     license_assigned := false; groups_added := ∅;
     mailbox_configured := false; temp_password := None; errors := [] |}.

Definition set_errors (errs : list string) (r : result) : result :=
  {| upn := upn r; success := success r; user_created := user_created r;
     license_assigned := license_assigned r; groups_added := groups_added r;
     mailbox_configured := mailbox_configured r;
     temp_password := temp_password r; errors := errs |}.

(** [result['errors'].append(e)] *)
Definition append_error (e : string) (r : result) : result :=
  set_errors (errors r ++ [e])%list r.

Definition set_created (pw : string) (r : result) : result :=
  {| upn := upn r; success := success r; user_created := true;
     license_assigned := license_assigned r; groups_added := groups_added r;
     mailbox_configured := mailbox_configured r;
     temp_password := Some pw; errors := errors r |}.

Definition set_license_assigned (b : bool) (r : result) : result :=
  {| upn := upn r; success := success r; user_created := user_created r;
     license_assigned := b; groups_added := groups_added r;
     mailbox_configured := mailbox_configured r;
     temp_password := temp_password r; errors := errors r |}.

Definition set_groups_added (g : gmap string bool) (r : result) : result :=
  {| upn := upn r; success := success r; user_created := user_created r;
     license_assigned := license_assigned r; groups_added := g;
     mailbox_configured := mailbox_configured r;
     temp_password := temp_password r; errors := errors r |}.

Definition set_mailbox_configured (b : bool) (r : result) : result :=
  {| upn := upn r; success := success r; user_created := user_created r;
     license_assigned := license_assigned r; groups_added := groups_added r;
     mailbox_configured := b;
     temp_password := temp_password r; errors := errors r |}.

Definition set_success (r : result) : result :=
  {| upn := upn r; success := true; user_created := user_created r;
     license_assigned := license_assigned r; groups_added := groups_added r;
     mailbox_configured := mailbox_configured r;
     temp_password := temp_password r; errors := errors r |}.

(** The [except Exception as e] clause of [onboard_user], applied to
    the result as the [try] block left it. *)
Definition unexpected (r : result) (e : exn) : result :=
  append_error ("Unexpected error during onboarding: " +:+ str_exn e) r.

(** A statement [m] of the [try] block of [onboard_user], run while the
    result dictionary holds [r]: an exception ends the block in its
    [except] clause, otherwise the block goes on with [k]. *)
Definition guarded {A} (r : result) (m : M A) (k : A -> M result) : M result :=
  fun w =>
    match m w with
    | (w', Ret a) => k a w'
    | (w', Raise e) => (w', Ret (unexpected r e))
    | (w', Loop) => (w', Loop)
    end.

(** [[g.strip() for g in groups_str.split(';') if g.strip()]] *)
Definition parse_groups (groups_str : string) : list string :=
  filter (fun g => g ≠ "") (map Text.strip (Text.split ";" groups_str)).

Definition onboard_user (fuel : nat) (user_data : gmap string pyval) : M result :=
  let upn := dict_get_default user_data "user_principal_name" (PyStr "Unknown") in
  let result := initial_result upn in
  let* validation := validate_user_data user_data in
  let '(is_valid, errs) := validation in
  if negb is_valid then ret (set_errors errs result)
  else
    let* created := create_user fuel user_data in
    match created with
    | None => ret (append_error "User creation failed" result)
    | Some info =>
        let result := set_created (info_temp_password info) result in
        let user_id := info_user_id info in
        sleep 2 ;;
        guarded result (subscript user_data "license_type") (fun license_cell =>
        guarded result (as_str "upper" license_cell) (fun license_type =>
        guarded result (assign_license user_id license_type upn) (fun assigned =>
        let result := set_license_assigned assigned result in
        if negb assigned then
          let result := append_error "License assignment failed" result in
          guarded result (rollback_user_creation user_id upn) (fun _ =>
          ret result)
        else
          guarded result
            (as_str "strip" (dict_get_default user_data "groups" (PyStr "")))
            (fun groups_cell =>
          let groups_str := Text.strip groups_cell in
          guarded result
            (if String.eqb groups_str "" then ret (groups_added result)
             else add_to_groups user_id (parse_groups groups_str) upn)
            (fun groups =>
          let result := set_groups_added groups result in
          let mailbox_delegation := dict_get user_data "mailbox_delegation" in
          guarded result
            (configure_mailbox user_id license_type upn mailbox_delegation)
            (fun configured =>
          let result := set_mailbox_configured configured result in
          ret (set_success result)))))))
    end.

End Manager.

(** ** Vocabulary of the statements *)

(** [halts m]: [m] never loops.  [total m]: [m] always returns a value.
    [silent obs m]: [m] adds nothing to the history that [obs] sees. *)
Definition halts {A} (m : M A) : Prop := forall w, (m w).2 <> Loop.
Definition total {A} (m : M A) : Prop := forall w, exists w' a, m w = (w', Ret a).
Definition silent {X A} (obs : event -> option X) (m : M A) : Prop :=
  forall w, omap obs (log (m w).1) = omap obs (log w).
Definition draws_nothing {A} (m : M A) : Prop :=
  forall w, drawn (m w).1 = drawn w.

(** The accounts deleted and the mailboxes updated in a history, newest
    first. *)
Definition rollback_of (e : event) : option string :=
  match e with Call (UserDelete user_id) _ => Some user_id | _ => None end.
Definition rollbacks (l : list event) : list string := omap rollback_of l.

Definition mailbox_update_of (e : event) : option string :=
  match e with Call (UserPatch user_id _) _ => Some user_id | _ => None end.
Definition mailbox_updates (l : list event) : list string := omap mailbox_update_of l.

(** The accounts the service accepted to create. *)
Definition created_account_of (e : event) : option User :=
  match e with Call (UsersPost new_user) None => Some new_user | _ => None end.
Definition accounts_created (l : list event) : list User := omap created_account_of l.

(** The retry schedule of a run of attempts, as the specification words
    it: a delay after every attempt but the last, doubling from
    [retry_delay]. *)
Fixpoint backoff_schedule (call : option exn -> event) (retry_delay : nat)
    (attempts : list (option exn)) : list event :=
  match attempts with
  | [] => []
  | [a] => [call a]
  | a :: rest =>
      call a :: Sleep retry_delay :: backoff_schedule call (retry_delay * 2) rest
  end.

(** An attempt that ended in an [APIError], and one that ended in any
    other exception. *)
Definition api_failure (a : option exn) : bool :=
  match a with Some e => is_APIError e | None => false end.
Definition other_failure (a : option exn) : bool :=
  match a with Some e => negb (is_APIError e) | None => false end.

(** The group lookups of a history, newest first. *)
Definition group_lookups (l : list event) : list string :=
  omap (fun e => match e with Call (GroupsGet f) _ => Some f | _ => None end) l.

(** The newest call of the history ended in an [APIError] whose message,
    in lowercase, contains "already exist". *)
Definition raised_already_member (l : list event) : bool :=
  match l with
  | Call _ (Some (APIError message)) :: _ =>
      Text.contains "already exist" (Text.lower message)
  | _ => false
  end.

(** The proposed principal name and the error list of a row whose
    license cell is the text [license_type], given what the two remote
    checks found. *)
Definition proposed_upn (user_data : gmap string pyval) : pyval :=
  dict_get_default user_data "user_principal_name" (PyStr "").

Definition all_errors (user_data : gmap string pyval)
    (duplicate manager : list string) (license_type : string) : list string :=
  ((((check_required user_data ++ check_upn_format (proposed_upn user_data))
       ++ duplicate) ++ manager)
     ++ check_license (Text.upper license_type))%list.

(** The principal name [onboard_user] reports in its result. *)
Definition reported_upn (user_data : gmap string pyval) : pyval :=
  dict_get_default user_data "user_principal_name" (PyStr "Unknown").

Section Workflow.

Variable client : GraphServiceClient.
Variable sku_cache : option (gmap string string).
Variable entropy : nat -> nat.
Variable fuel : nat.
Variable user_data : gmap string pyval.

Local Abbreviation upn0 := (reported_upn user_data).

(** The group step of [onboard_user] for a groups cell holding text. *)
Definition group_step (user_id : string) (groups_cell : string)
  : M (gmap string bool) :=
  if String.eqb (Text.strip groups_cell) "" then ret ∅
  else add_to_groups client user_id (parse_groups (Text.strip groups_cell)) upn0.

(** The ways a run of [onboard_user] that starts in [w] ends with a
    result: the terminal states of the workflow. *)
Inductive run (w : world) : world -> result -> Prop :=
| Rejected w1 errs :
    validate_user_data client user_data w = (w1, Ret (false, errs)) ->
    run w w1 (set_errors errs (initial_result upn0))
| NotCreated w1 errs w2 :
    validate_user_data client user_data w = (w1, Ret (true, errs)) ->
    create_user client entropy fuel user_data w1 = (w2, Ret None) ->
    run w w2 (append_error "User creation failed" (initial_result upn0))
| RolledBack w1 errs w2 info license_type w3 raised :
    validate_user_data client user_data w = (w1, Ret (true, errs)) ->
    create_user client entropy fuel user_data w1 = (w2, Ret (Some info)) ->
    user_data !! "license_type" = Some (PyStr license_type) ->
    assign_license client sku_cache (info_user_id info) license_type upn0
      (record (Sleep 2) w2) = (w3, Ret false) ->
    run w (record (Call (UserDelete (info_user_id info)) raised) w3)
      (append_error "License assignment failed"
         (set_license_assigned false
            (set_created (info_temp_password info) (initial_result upn0))))
| GroupsUnreadable w1 errs w2 info license_type w3 :
    validate_user_data client user_data w = (w1, Ret (true, errs)) ->
    create_user client entropy fuel user_data w1 = (w2, Ret (Some info)) ->
    user_data !! "license_type" = Some (PyStr license_type) ->
    assign_license client sku_cache (info_user_id info) license_type upn0
      (record (Sleep 2) w2) = (w3, Ret true) ->
    user_data !! "groups" = Some PyNone ->
    run w w3
      (unexpected
         (set_license_assigned true
            (set_created (info_temp_password info) (initial_result upn0)))
         (AttributeError "'NoneType' object has no attribute 'strip'"))
| Completed w1 errs w2 info license_type w3 groups_cell w4 groups raised configured :
    validate_user_data client user_data w = (w1, Ret (true, errs)) ->
    create_user client entropy fuel user_data w1 = (w2, Ret (Some info)) ->
    user_data !! "license_type" = Some (PyStr license_type) ->
    assign_license client sku_cache (info_user_id info) license_type upn0
      (record (Sleep 2) w2) = (w3, Ret true) ->
    dict_get_default user_data "groups" (PyStr "") = PyStr groups_cell ->
    group_step (info_user_id info) groups_cell w3 = (w4, Ret groups) ->
    run w
      (record (Call (UserPatch (info_user_id info) "W. Europe Standard Time") raised) w4)
      (set_success
         (set_mailbox_configured configured
            (set_groups_added groups
               (set_license_assigned true
                  (set_created (info_temp_password info) (initial_result upn0)))))).

End Workflow.

(** ** Concrete tenants, rows and clients used in the examples *)

Module Examples.

Definition tenant_cache : option (gmap string string) :=
  Some {[ "SPE_E3" := "sku-1" ]}.

Definition w0 : world := {| log := []; drawn := 0 |}.

(** A source of entropy whose first candidate is accepted. *)
Definition stride7 (k : nat) : nat := k * 7.

(** A directory that accepts every request. *)
Definition happy : GraphServiceClient := {|
  users_get := fun f _ =>
    match f with None => Ok [] | Some _ => Ok [PyStr "boss@x.com"] end;
  users_post := fun u _ =>
    Ok {| id := "u-1"; created_display_name := display_name u |};
  assign_license_post := fun _ _ _ => Ok tt;
  groups_get := fun _ _ => Ok ["g-1"];
  members_ref_post := fun _ _ _ => Ok tt;
  user_patch := fun _ _ _ => Ok tt;
  user_delete := fun _ _ => Ok tt |}.

(** The same directory, with one operation replaced. *)
Definition with_license (answer : list event -> outcome unit) : GraphServiceClient := {|
  users_get := users_get happy;
  users_post := users_post happy;
  assign_license_post := fun _ _ => answer;
  groups_get := groups_get happy;
  members_ref_post := members_ref_post happy;
  user_patch := user_patch happy;
  user_delete := user_delete happy |}.

(** Group lookups find nothing and the mailbox update is refused. *)
Definition best_effort_failing : GraphServiceClient := {|
  users_get := users_get happy;
  users_post := users_post happy;
  assign_license_post := assign_license_post happy;
  groups_get := fun _ _ => Ok [];
  members_ref_post := members_ref_post happy;
  user_patch := fun _ _ _ => Err (APIError "mailbox not ready");
  user_delete := user_delete happy |}.

(** Adding a member answers that the reference is already there. *)
Definition already_member_client : GraphServiceClient := {|
  users_get := users_get happy;
  users_post := users_post happy;
  assign_license_post := assign_license_post happy;
  groups_get := groups_get happy;
  members_ref_post := fun _ _ _ =>
    Err (APIError "One or more added object references already exist");
  user_patch := user_patch happy;
  user_delete := user_delete happy |}.

(** License assignment is throttled once, then goes through. *)
Definition throttled_once : GraphServiceClient :=
  with_license (fun h => match h with
                         | Sleep _ :: _ => Ok tt
                         | _ => Err (APIError "throttled")
                         end).

(** License assignment never gets an answer. *)
Definition timing_out : GraphServiceClient :=
  with_license (fun _ => Err (OtherError "timed out")).

(** License assignment is refused every time. *)
Definition refusing : GraphServiceClient :=
  with_license (fun _ => Err (APIError "no seats left")).

Definition row : gmap string pyval :=
  {[ "first_name" := PyStr "A"; "last_name" := PyStr "B";
     "user_principal_name" := PyStr "a@x.com";
     "license_type" := PyStr "E3"; "groups" := PyStr "Sales; IT" ]}.

(** A CSV row that stops after the third cell: [csv.DictReader] fills
    the columns it lacks with [None]. *)
Definition short_row : gmap string pyval :=
  {[ "first_name" := PyStr "A"; "last_name" := PyStr "B";
     "user_principal_name" := PyStr "a@x.com";
     "license_type" := PyNone ]}.

(** Reading off what a run ended with. *)
Definition final_world (x : world * res result) : world := x.1.
Definition final_result (x : world * res result) : result :=
  match x.2 with
  | Ret r => r
  | _ => initial_result PyNone
  end.

(** The row, with license assignment refused at every attempt. *)
Definition refused_run : world * res result :=
  onboard_user refusing tenant_cache stride7 5 row w0.


End Examples.

(** ** Tenant SKUs: [initialize_sku_cache] *)

(** What [initialize_sku_cache] reads of a subscribed SKU:
    [sku.sku_part_number], [str(sku.sku_id)], [sku.prepaid_units] (absent,
    or its [enabled] count, itself optional) and [sku.consumed_units]. *)
Record SubscribedSku := {
  part_number : string;
  sku_guid : string;
  prepaid_enabled : option (option Z);
  consumed : option Z
}.

(** The number of free licenses the loop computes for its log line:
    [sku.prepaid_units.enabled - sku.consumed_units if sku.prepaid_units
    else 0].  Subtracting with [None] raises (a [TypeError], carried here
    by [OtherError]). *)
Definition available (sku : SubscribedSku) : outcome Z :=
  match prepaid_enabled sku with
  | None => Ok 0%Z
  | Some enabled =>
      match enabled, consumed sku with
      | Some e, Some c => Ok (e - c)%Z
      | _, _ => Err (OtherError "unsupported operand type(s) for -")
      end
  end.

(** The loop over [subscribed_skus.value]: each SKU is stored before its
    log line is computed; an exception leaves the cache as filled so
    far. *)
Fixpoint fill_sku_cache (skus : list SubscribedSku) (cache : gmap string string)
  : gmap string string * outcome unit :=
  match skus with
  | [] => (cache, Ok tt)
  | sku :: rest =>
      let cache := <[part_number sku := sku_guid sku]> cache in
      match available sku with
      | Ok _ => fill_sku_cache rest cache
      | Err e => (cache, Err e)
      end
  end.

(** [initialize_sku_cache], given what [self.client.subscribed_skus.get()]
    answers (the [value] list, empty also for a missing response) and
    the cache held before: the new value of [self.sku_cache] and how the
    call ends.  Every exception is logged and raised again. *)
Definition initialize_sku_cache (answer : outcome (list SubscribedSku))
    (sku_cache : option (gmap string string))
  : option (gmap string string) * outcome unit :=
  match answer with
  | Err e => (sku_cache, Err e)
  | Ok skus =>
      let '(cache, ended) := fill_sku_cache skus ∅ in (Some cache, ended)
  end.

(** ** The batch runner: [process_csv] *)

Section Batch.

Variable client : GraphServiceClient.
Variable sku_cache : option (gmap string string).
Variable entropy : nat -> nat.
Variable fuel : nat.



End Batch.

(** ** More vocabulary *)

(** The exception a remote answer stands for, if any. *)
Definition raised_by {A} (o : outcome A) : option exn :=
  match o with Ok _ => None | Err e => Some e end.

(** [f"userPrincipalName eq '{manager_email}'"] *)
Definition manager_filter (manager_email : string) : string :=
  "userPrincipalName eq '" +:+ manager_email +:+ "'".


(** Requests that change the directory, and those of them the service
    accepted. *)
Definition is_write (r : request) : bool :=
  match r with UsersGet _ | GroupsGet _ => false | _ => true end.
Definition effective_write_of (e : event) : option request :=
  match e with
  | Call r None => if is_write r then Some r else None
  | _ => None
  end.
Definition effective_writes (l : list event) : list request :=
  omap effective_write_of l.

(** The write requests sent, accepted or not. *)
Definition write_attempt_of (e : event) : option request :=
  match e with
  | Call r _ => if is_write r then Some r else None
  | Sleep _ => None
  end.
Definition write_attempts (l : list event) : list request := omap write_attempt_of l.

(** The account creations and the membership additions sent, accepted or
    not. *)
Definition post_attempt_of (e : event) : option User :=
  match e with Call (UsersPost new_user) _ => Some new_user | _ => None end.
Definition post_attempts (l : list event) : list User := omap post_attempt_of l.

Definition member_post_of (e : event) : option (string * string) :=
  match e with
  | Call (MembersRefPost group_id odata_id) _ => Some (group_id, odata_id)
  | _ => None
  end.
Definition member_posts (l : list event) : list (string * string) :=
  omap member_post_of l.

(** [odata_id] of the reference [add_to_groups] posts for a user. *)
Definition directory_object (user_id : string) : string :=
  "https://graph.microsoft.com/v1.0/directoryObjects/" +:+ user_id.

(** The windows of draws [generate_password] looks at: the [i]-th
    candidate when the loop starts at draw [k]. *)
Definition nth_candidate (entropy : nat -> nat) (length k i : nat) : string :=
  candidate entropy length (k + i * length).

(** The number of characters of a text that satisfy [p]. *)
Fixpoint count_chars (p : ascii -> bool) (s : string) : nat :=
  match s with
  | EmptyString => 0
  | String c s' => (if p c then 1 else 0) + count_chars p s'
  end.

(** Text without white space at either end and without the character
    [sep]. *)
Definition starts_with_space (s : string) : bool :=
  match s with String c _ => Text.isspace c | EmptyString => false end.
Fixpoint ends_with_space (s : string) : bool :=
  match s with
  | EmptyString => false
  | String c EmptyString => Text.isspace c
  | String _ s' => ends_with_space s'
  end.

(** More rows, tenants and clients for the examples. *)

Module MoreExamples.


(** Entropy that only ever picks the letter "a": no window is accepted. *)
Definition stuck (k : nat) : nat := 0.

Definition e3_sku : SubscribedSku :=
  {| part_number := "SPE_E3"; sku_guid := "sku-1";
     prepaid_enabled := Some (Some 25%Z); consumed := Some 10%Z |}.
Definition e3_sku_again : SubscribedSku :=
  {| part_number := "SPE_E3"; sku_guid := "sku-2";
     prepaid_enabled := None; consumed := None |}.
Definition e5_sku : SubscribedSku :=
  {| part_number := "SPE_E5"; sku_guid := "sku-5";
     prepaid_enabled := Some (Some 5%Z); consumed := Some 5%Z |}.

(** The directory already holds the principal of [Examples.row]. *)
Definition holding_a : GraphServiceClient := {|
  users_get := fun f _ =>
    match f with None => Ok [PyStr "a@x.com"] | Some _ => Ok [PyStr "boss@x.com"] end;
  users_post := users_post Examples.happy;
  assign_license_post := assign_license_post Examples.happy;
  groups_get := groups_get Examples.happy;
  members_ref_post := members_ref_post Examples.happy;
  user_patch := user_patch Examples.happy;
  user_delete := user_delete Examples.happy |}.

(** The directory cannot be listed. *)
Definition unlistable : GraphServiceClient := {|
  users_get := fun _ _ => Err (APIError "service unavailable");
  users_post := users_post Examples.happy;
  assign_license_post := assign_license_post Examples.happy;
  groups_get := groups_get Examples.happy;
  members_ref_post := members_ref_post Examples.happy;
  user_patch := user_patch Examples.happy;
  user_delete := user_delete Examples.happy |}.

(** Account creation is refused. *)
Definition not_creating : GraphServiceClient := {|
  users_get := users_get Examples.happy;
  users_post := fun _ _ => Err (APIError "property value is invalid");
  assign_license_post := assign_license_post Examples.happy;
  groups_get := groups_get Examples.happy;
  members_ref_post := members_ref_post Examples.happy;
  user_patch := user_patch Examples.happy;
  user_delete := user_delete Examples.happy |}.

(** The directory holds one user, "a.x.com", and finds nobody under a
    filter. *)
Definition strict_directory : GraphServiceClient := {|
  users_get := fun f _ =>
    match f with None => Ok [PyStr "a.x.com"] | Some _ => Ok [] end;
  users_post := users_post Examples.happy;
  assign_license_post := assign_license_post Examples.happy;
  groups_get := groups_get Examples.happy;
  members_ref_post := members_ref_post Examples.happy;
  user_patch := user_patch Examples.happy;
  user_delete := user_delete Examples.happy |}.

(** A row with every defect the validator looks for. *)
Definition bad_row : gmap string pyval :=
  {[ "first_name" := PyStr ""; "last_name" := PyStr "B";
     "user_principal_name" := PyStr "a.x.com";
     "manager_email" := PyStr "nobody@x.com";
     "license_type" := PyStr "E9" ]}.


Definition no_groups_cell : gmap string pyval :=
  {[ "first_name" := PyStr "A"; "last_name" := PyStr "B";
     "user_principal_name" := PyStr "a@x.com";
     "license_type" := PyStr "E3"; "groups" := PyNone ]}.

(** Runs of the orchestrator: account creation refused, the groups cell
    unreadable, and all well. *)
Definition not_created_run : world * res result :=
  onboard_user not_creating Examples.tenant_cache Examples.stride7 5 Examples.row
    Examples.w0.
Definition dangling_run : world * res result :=
  onboard_user Examples.happy Examples.tenant_cache Examples.stride7 5 no_groups_cell
    Examples.w0.
Definition happy_run : world * res result :=
  onboard_user Examples.happy Examples.tenant_cache Examples.stride7 5 Examples.row
    Examples.w0.

(** The run for a row whose principal name the directory already holds. *)
Definition taken_run : world * res result :=
  onboard_user holding_a Examples.tenant_cache Examples.stride7 5 Examples.row
    Examples.w0.


(** Adding a member is refused with the error the Graph SDK raises when
    the reference is already there.  The SDK decodes the service's
    answer into an [ODataError], a subclass of [APIError]: the text of
    the service ("One or more added object references already exist
    for the following modified properties: 'members'.") is carried in
    [e.error.message], while the [message] attribute that
    [add_to_groups] reads keeps its default, [None]; [str(None)] is
    "None". *)
Definition sdk_already_member : GraphServiceClient := {|
  users_get := users_get Examples.happy;
  users_post := users_post Examples.happy;
  assign_license_post := assign_license_post Examples.happy;
  groups_get := groups_get Examples.happy;
  members_ref_post := fun _ _ _ => Err (APIError "None");
  user_patch := user_patch Examples.happy;
  user_delete := user_delete Examples.happy |}.

End MoreExamples.

(** ** The SKU resolver *)

Lemma get_sku_id_resolved sku_cache license_type sku_id :
  get_sku_id sku_cache license_type = Ok (Some sku_id) ->
  String.eqb (Text.upper license_type) "NONE" = false /\
  String.eqb sku_id "" = false.
Proof.
  unfold get_sku_id.
  destruct (cache_unset sku_cache); [discriminate |].
  destruct (String.eqb (Text.upper license_type) "NONE"); [discriminate |].
  destruct (mapping_get (Text.upper license_type)) as [part |]; [| discriminate].
  destruct (cache_get sku_cache part) as [found |]; [| discriminate].
  destruct (String.eqb found "") eqn:Hempty; [discriminate |].
  intros [= <-]. auto.
Qed.

Lemma mapping_get_unmapped k : in_mapping k = false -> mapping_get k = None.
Proof.
  unfold in_mapping, mapping_get.
  destruct (assoc k LICENSE_SKU_MAPPING); [discriminate | reflexivity].
Qed.

(** C4, as the spec words it, fails: with the tenant holding the E3 SKU,
    the tier "E9" is in no mapping and is not the no-op tier, yet the
    lookup answers [None], the very answer it gives for "NONE". *)
Lemma get_sku_id_unmapped_tier_is_None :
  in_mapping (Text.upper "E9") = false /\
  Text.upper "E9" <> "NONE" /\
  get_sku_id Examples.tenant_cache "E9" = Ok None /\
  get_sku_id Examples.tenant_cache "E9" = get_sku_id Examples.tenant_cache "NONE".
Proof. repeat split; try reflexivity. vm_compute. discriminate. Qed.

(** C4 (amended): with an initialised cache, [get_sku_id] answers [None]
    for the no-op tier "NONE" in any letter case and the same [None] for
    a tier outside the recognised mapping; it answers a SKU id exactly
    when the tier maps to a part number that the cache holds with a
    non-empty id. *)
Theorem get_sku_id_none_cases sku_cache license_type :
  cache_unset sku_cache = false ->
  (Text.upper license_type = "NONE" -> get_sku_id sku_cache license_type = Ok None) /\
  (in_mapping (Text.upper license_type) = false ->
     get_sku_id sku_cache license_type = Ok None) /\
  (forall sku_id,
     get_sku_id sku_cache license_type = Ok (Some sku_id) <->
     sku_id <> "" /\
     exists part, mapping_get (Text.upper license_type) = Some part /\
                  cache_get sku_cache part = Some sku_id).
Proof.
  intros Hset. unfold get_sku_id. rewrite Hset.
  split; [| split; [| intros sku_id; split]].
  - intros ->. reflexivity.
  - intros Hout. rewrite (mapping_get_unmapped _ Hout).
    destruct (String.eqb _ "NONE"); reflexivity.
  - destruct (String.eqb (Text.upper license_type) "NONE"); [discriminate |].
    destruct (mapping_get (Text.upper license_type)) as [part |]; [| discriminate].
    destruct (cache_get sku_cache part) as [found |] eqn:Hfound; [| discriminate].
    destruct (String.eqb found "") eqn:Hempty; [discriminate |].
    intros [= <-]. split.
    + apply String.eqb_neq. exact Hempty.
    + exists part. auto.
  - intros [Hne (part & Hmap & Hget)].
    destruct (String.eqb (Text.upper license_type) "NONE") eqn:Hnone.
    + apply String.eqb_eq in Hnone. rewrite Hnone in Hmap. discriminate.
    + rewrite Hmap, Hget.
      destruct (String.eqb sku_id "") eqn:Hempty; [| reflexivity].
      apply String.eqb_eq in Hempty. contradiction.
Qed.

Lemma get_sku_id_none_cases_witness :
  get_sku_id Examples.tenant_cache "none" = Ok None /\
  get_sku_id Examples.tenant_cache "E9" = Ok None /\
  get_sku_id Examples.tenant_cache "e3" = Ok (Some "sku-1").
Proof.
  assert (Hset : cache_unset Examples.tenant_cache = false) by reflexivity.
  split; [| split].
  - exact (proj1 (get_sku_id_none_cases Examples.tenant_cache "none" Hset) eq_refl).
  - exact (proj1 (proj2 (get_sku_id_none_cases Examples.tenant_cache "E9" Hset)) eq_refl).
  - apply (proj2 (proj2 (get_sku_id_none_cases Examples.tenant_cache "e3" Hset))).
    split; [discriminate |]. exists "SPE_E3". split; reflexivity.
Defined.

(** ** Generated passwords *)

Section PasswordFacts.

Variable entropy : nat -> nat.

Lemma candidate_length n k : String.length (candidate entropy n k) = n.
Proof.
  revert k. induction n as [| n IH]; intros k; simpl; [reflexivity |].
  now rewrite IH.
Qed.

Lemma char_at_member s i :
  i < String.length s -> Text.has_char (Text.char_at i s) s = true.
Proof.
  unfold Text.has_char. revert i.
  induction s as [| c s IH]; intros i Hi; simpl in *; [lia |].
  destruct i as [| i].
  - now rewrite Ascii.eqb_refl.
  - change (Text.char_at (S i) (String c s)) with (Text.char_at i s).
    rewrite IH by lia. apply orb_true_r.
Qed.

Lemma choice_member seq k :
  seq <> EmptyString -> Text.has_char (choice entropy seq k) seq = true.
Proof.
  intros Hne. apply char_at_member. apply Nat.mod_upper_bound.
  destruct seq; [contradiction | simpl; lia].
Qed.

Lemma candidate_alphabet n k :
  Text.all (fun c => Text.has_char c alphabet) (candidate entropy n k) = true.
Proof.
  revert k. induction n as [| n IH]; intros k; simpl; [reflexivity |].
  rewrite IH, andb_true_r. apply choice_member. discriminate.
Qed.

(** What the loop returns is a candidate it accepted. *)
Lemma generate_password_accepted fuel length k pw k' :
  generate_password entropy fuel length k = Some (pw, k') ->
  complex_enough pw = true /\ exists j, pw = candidate entropy length j.
Proof.
  revert k. induction fuel as [| fuel IH]; intros k; simpl; [discriminate |].
  destruct (complex_enough (candidate entropy length k)) eqn:Hok.
  - intros [= <- _]. eauto.
  - apply IH.
Qed.


(** C8: a password returned for a requested length of at least 16 (the
    default, which is what [create_user] asks for, is 16) has at least
    16 characters, holds a lowercase letter, an uppercase letter, a
    digit and a symbol of "!@#$%^&*", and every character of it comes
    from the alphabet of letters, digits and those symbols. *)
Theorem generate_password_meets_policy fuel length k pw k' :
  16 <= length ->
  generate_password entropy fuel length k = Some (pw, k') ->
  16 <= String.length pw /\
  Text.any Text.islower pw = true /\
  Text.any Text.isupper pw = true /\
  Text.any Text.isdigit pw = true /\
  Text.any (fun c => Text.has_char c symbols) pw = true /\
  Text.all (fun c => Text.has_char c alphabet) pw = true.
Proof.
  intros Hlen Hgen.
  destruct (generate_password_accepted _ _ _ _ _ Hgen) as [Hok [j ->]].
  unfold complex_enough, is_symbol in Hok.
  apply andb_prop in Hok as [Hok Hsym].
  apply andb_prop in Hok as [Hok Hdig].
  apply andb_prop in Hok as [Hlow Hupp].
  rewrite candidate_length.
  repeat split; auto using candidate_alphabet.
Qed.

End PasswordFacts.

Lemma generate_password_meets_policy_witness :
  generate_password Examples.stride7 5 default_length 0
    = Some ("ahovCJQX4@ahovCJ", 16) /\
  16 <= String.length "ahovCJQX4@ahovCJ" /\
  Text.any Text.islower "ahovCJQX4@ahovCJ" = true /\
  Text.any Text.isupper "ahovCJQX4@ahovCJ" = true /\
  Text.any Text.isdigit "ahovCJQX4@ahovCJ" = true /\
  Text.any (fun c => Text.has_char c symbols) "ahovCJQX4@ahovCJ" = true /\
  Text.all (fun c => Text.has_char c alphabet) "ahovCJQX4@ahovCJ" = true.
Proof.
  assert (Hlen : 16 <= default_length) by (unfold default_length; lia).
  assert (Hgen : generate_password Examples.stride7 5 default_length 0
                 = Some ("ahovCJQX4@ahovCJ", 16)) by (vm_compute; reflexivity).
  split; [exact Hgen |].
  exact (generate_password_meets_policy Examples.stride7 5 default_length 0
           "ahovCJQX4@ahovCJ" 16 Hlen Hgen).
Defined.

(** ** License assignment *)

Section LicenseFacts.

Variable client : GraphServiceClient.
Variable sku_cache : option (gmap string string).

(** C9: for the tier "NONE" in any letter case, [assign_license]
    returns [True] at once; the history is left as it was, so no remote
    call (and no delay) has been made. *)
Theorem assign_license_none_is_noop user_id license_type upn w :
  Text.upper license_type = "NONE" ->
  assign_license client sku_cache user_id license_type upn w = (w, Ret true).
Proof.
  intros Hnone. unfold assign_license. rewrite Hnone. reflexivity.
Qed.

Lemma assign_license_try_resolved user_id license_type sku_id :
  get_sku_id sku_cache license_type = Ok (Some sku_id) ->
  assign_license_try client sku_cache user_id license_type
  = (remote (AssignLicensePost user_id sku_id)
            (assign_license_post client user_id sku_id) ;; ret true).
Proof.
  intros Hsku. unfold assign_license_try. rewrite Hsku.
  destruct (get_sku_id_resolved _ _ _ Hsku) as [_ ->]. reflexivity.
Qed.

(** Without a SKU the step fails before any remote call. *)
Lemma assign_license_unresolved user_id license_type upn w :
  String.eqb (Text.upper license_type) "NONE" = false ->
  (forall sku_id, get_sku_id sku_cache license_type <> Ok (Some sku_id)) ->
  assign_license client sku_cache user_id license_type upn w = (w, Ret false).
Proof.
  intros Hnone Hsku. unfold assign_license. rewrite Hnone.
  unfold assign_license_loop, max_retries, seq, try_except, assign_license_try.
  destruct (get_sku_id sku_cache license_type) as [[sku_id |] | e] eqn:Hget.
  - exfalso. exact (Hsku sku_id eq_refl).
  - reflexivity.
  - unfold get_sku_id in Hget.
    destruct (cache_unset sku_cache).
    + injection Hget as <-. reflexivity.
    + destruct (String.eqb _ "NONE"); [discriminate |].
      destruct (mapping_get _); [| discriminate].
      destruct (cache_get _ _) as [found |]; [| discriminate].
      destruct (String.eqb found ""); discriminate.
Qed.

Local Ltac close_attempts l :=
  exists l; do 2 eexists;
  split; [reflexivity |]; split; [reflexivity |]; split; [reflexivity |];
  simpl;
  repeat match goal with
  | H : is_APIError ?e = _ |- context [is_APIError ?e] => rewrite H
  end;
  simpl; repeat split; intros; try lia; try reflexivity; try discriminate;
  try (left; split; reflexivity); try (right; reflexivity);
  repeat match goal with
  | H : _ \/ _ |- _ => destruct H
  | H : _ /\ _ |- _ => destruct H
  end; try discriminate; try lia.

(** C3 (amended): with a tier that resolves to a SKU, the assignment is
    attempted at least once and at most 3 times; the history grows by
    the attempts with a delay of 2s after the first and 4s after the
    second, none after the last one made; an attempt is followed by
    another only when it ended in an [APIError]; the step returns
    [True] exactly when the last attempt made succeeded, and [False]
    exactly when all 3 attempts ended in an [APIError] or an attempt
    ended in any other exception. *)
Theorem assign_license_retries user_id license_type upn sku_id w :
  get_sku_id sku_cache license_type = Ok (Some sku_id) ->
  exists (attempts : list (option exn)) (b : bool) (w' : world),
    assign_license client sku_cache user_id license_type upn w = (w', Ret b) /\
    log w' = (rev (backoff_schedule (Call (AssignLicensePost user_id sku_id)) 2 attempts)
              ++ log w)%list /\
    drawn w' = drawn w /\
    1 <= length attempts <= 3 /\
    forallb api_failure (removelast attempts) = true /\
    (b = true <-> last attempts = Some None) /\
    (b = false <->
       (length attempts = 3 /\ forallb api_failure attempts = true) \/
       existsb other_failure attempts = true).
Proof.
  intros Hsku. unfold assign_license.
  destruct (get_sku_id_resolved _ _ _ Hsku) as [-> _].
  unfold assign_license_loop, max_retries, seq.
  rewrite (assign_license_try_resolved _ _ _ Hsku).
  unfold try_except, bind, remote, sleep, ret. simpl.
  destruct (assign_license_post client user_id sku_id (log w)) as [[] | e1] eqn:R1.
  { close_attempts [@None exn]. }
  destruct (is_APIError e1) eqn:A1; simpl.
  2: { close_attempts [Some e1]. }
  destruct (assign_license_post client user_id sku_id
              (Sleep 2 :: Call (AssignLicensePost user_id sku_id) (Some e1) :: log w))
    as [[] | e2] eqn:R2; simpl.
  { close_attempts [Some e1; None]. }
  destruct (is_APIError e2) eqn:A2; simpl.
  2: { close_attempts [Some e1; Some e2]. }
  destruct (assign_license_post client user_id sku_id
              (Sleep 4 :: Call (AssignLicensePost user_id sku_id) (Some e2)
               :: Sleep 2 :: Call (AssignLicensePost user_id sku_id) (Some e1) :: log w))
    as [[] | e3] eqn:R3; simpl.
  { close_attempts [Some e1; Some e2; None]. }
  destruct (is_APIError e3) eqn:A3; simpl.
  - close_attempts [Some e1; Some e2; Some e3].
  - close_attempts [Some e1; Some e2; Some e3].
Qed.

End LicenseFacts.

Lemma assign_license_none_is_noop_witness :
  assign_license Examples.happy Examples.tenant_cache "u-1" "none" (PyStr "a@x.com")
    Examples.w0 = (Examples.w0, Ret true).
Proof.
  apply (assign_license_none_is_noop Examples.happy Examples.tenant_cache
           "u-1" "none" (PyStr "a@x.com") Examples.w0).
  reflexivity.
Defined.

(** C3, as the spec words it, fails: the tier resolves to a SKU, the
    first attempt ends in an exception that is not an [APIError], and the
    step returns [False] after that single attempt, not after 3 failed
    ones. *)
Lemma assign_license_fails_after_one_attempt :
  get_sku_id Examples.tenant_cache "E3" = Ok (Some "sku-1") /\
  assign_license Examples.timing_out Examples.tenant_cache "u-1" "E3" (PyStr "a@x.com")
    Examples.w0
  = ({| log := [Call (AssignLicensePost "u-1" "sku-1") (Some (OtherError "timed out"))];
        drawn := 0 |}, Ret false).
Proof. split; reflexivity. Qed.

Lemma assign_license_retries_witness :
  get_sku_id Examples.tenant_cache "E3" = Ok (Some "sku-1") /\
  exists (attempts : list (option exn)) (b : bool) (w' : world),
    assign_license Examples.throttled_once Examples.tenant_cache "u-1" "E3"
      (PyStr "a@x.com") Examples.w0 = (w', Ret b) /\
    log w' = (rev (backoff_schedule (Call (AssignLicensePost "u-1" "sku-1")) 2 attempts)
              ++ log Examples.w0)%list /\
    drawn w' = drawn Examples.w0 /\
    1 <= length attempts <= 3 /\
    forallb api_failure (removelast attempts) = true /\
    (b = true <-> last attempts = Some None) /\
    (b = false <->
       (length attempts = 3 /\ forallb api_failure attempts = true) \/
       existsb other_failure attempts = true).
Proof.
  split; [reflexivity |].
  apply (assign_license_retries Examples.throttled_once Examples.tenant_cache
           "u-1" "E3" (PyStr "a@x.com") "sku-1" Examples.w0).
  reflexivity.
Defined.

(** ** Group membership *)

Section GroupFacts.

Variable client : GraphServiceClient.

(** One turn makes exactly one lookup, stores a verdict under the name
    and never raises; the verdict is [True] when the turn ran into the
    "already exist" error. *)
Lemma add_to_group_turn user_id group_name results w :
  exists (b : bool) (w' : world),
    add_to_group client user_id group_name results w
      = (w', Ret (<[group_name := b]> results)) /\
    drawn w' = drawn w /\
    group_lookups (log w')
      = display_name_filter group_name :: group_lookups (log w) /\
    (raised_already_member (log w') = true -> b = true).
Proof.
  unfold add_to_group, try_except, bind, remote, ret.
  destruct (groups_get client (display_name_filter group_name) (log w))
    as [[| group_id others] | e] eqn:Hget; simpl.
  - exists false. eexists. split_and!; try reflexivity. discriminate.
  - destruct (members_ref_post client group_id _ _) as [[] | e] eqn:Hadd; simpl.
    + exists true. eexists. split_and!; try reflexivity.
    + destruct e as [message | | | |]; simpl;
        try (exists false; eexists; split_and!; try reflexivity; discriminate).
      destruct (Text.contains "already exist" (Text.lower message)) eqn:Hmsg.
      * exists true. eexists. split_and!; try reflexivity.
      * exists false. eexists. split_and!; try reflexivity. simpl. now rewrite Hmsg.
  - destruct e as [message | | | |]; simpl;
      try (exists false; eexists; split_and!; try reflexivity; discriminate).
    destruct (Text.contains "already exist" (Text.lower message)) eqn:Hmsg.
    + exists true. eexists. split_and!; try reflexivity.
    + exists false. eexists. split_and!; try reflexivity. simpl. now rewrite Hmsg.
Qed.

Lemma add_to_groups_loop_total user_id group_names results w :
  exists (results' : gmap string bool) (w' : world),
    add_to_groups_loop client user_id group_names results w = (w', Ret results') /\
    drawn w' = drawn w /\
    dom results' = list_to_set group_names ∪ dom results /\
    group_lookups (log w')
      = (rev (map display_name_filter group_names) ++ group_lookups (log w))%list /\
    (forall k, k ∉ group_names -> results' !! k = results !! k).
Proof.
  revert results w.
  induction group_names as [| name rest IH]; intros results w; simpl.
  - exists results, w. split_and!; try reflexivity. set_solver.
  - destruct (add_to_group_turn user_id name results w)
      as (b & w1 & Hturn & Hdrawn & Hlook & _).
    unfold bind. rewrite Hturn.
    destruct (IH (<[name := b]> results) w1)
      as (results' & w' & Hloop & Hdrawn' & Hdom & Hlook' & Hframe).
    exists results', w'. rewrite Hloop. split_and!; try reflexivity.
    + congruence.
    + rewrite Hdom, dom_insert_L. set_solver.
    + rewrite Hlook', Hlook, <- app_assoc. reflexivity.
    + intros k Hk. apply not_elem_of_cons in Hk as [Hne Hk].
      rewrite (Hframe k Hk). now apply lookup_insert_ne.
Qed.

(** The loop over [pre ++ name :: post] is the loop over [post] from
    where the turn of [name] leaves off. *)
Lemma add_to_groups_loop_app user_id pre name post results w w1 r1 w2 r2 :
  add_to_groups_loop client user_id pre results w = (w1, Ret r1) ->
  add_to_group client user_id name r1 w1 = (w2, Ret r2) ->
  add_to_groups_loop client user_id (pre ++ name :: post) results w
  = add_to_groups_loop client user_id post r2 w2.
Proof.
  revert results w.
  induction pre as [| p pre IH]; intros results w Hpre Hturn; simpl in *.
  - injection Hpre as <- <-. unfold bind. now rewrite Hturn.
  - unfold bind in *.
    destruct (add_to_group client user_id p results w) as [w0 [r0 | e |]];
      try discriminate.
    now apply IH.
Qed.

Lemma add_to_groups_is_loop user_id group_names upn w :
  add_to_groups client user_id group_names upn w
  = add_to_groups_loop client user_id group_names ∅ w.
Proof. destruct group_names; reflexivity. Qed.

(** The "already a member" branch is taken on the [message] attribute
    of the [APIError] alone: when the request to add the member raises
    one whose lowercased message lacks "already exist", the name is
    mapped to [False], whatever the error stands for. *)
Lemma add_to_group_unrecognised user_id group_name results w group_id others message :
  groups_get client (display_name_filter group_name) (log w) = Ok (group_id :: others) ->
  members_ref_post client group_id
    ("https://graph.microsoft.com/v1.0/directoryObjects/" +:+ user_id)
    (Call (GroupsGet (display_name_filter group_name)) None :: log w)
  = Err (APIError message) ->
  Text.contains "already exist" (Text.lower message) = false ->
  (add_to_group client user_id group_name results w).2
  = Ret (<[group_name := false]> results).
Proof.
  intros Hget Hadd Hmsg.
  unfold add_to_group, try_except, bind, remote, ret.
  rewrite Hget. simpl. rewrite Hadd. simpl. now rewrite Hmsg.
Qed.

(** [add_to_groups] returns a mapping whose keys are exactly the input
    names, each with a boolean; every name is looked up, in input
    order, whatever happened to the names before it; and a name whose
    (last) turn ran into an [APIError] whose [message] attribute holds
    "already exist", in any case, is mapped to [True]. *)
Lemma add_to_groups_covers_every_name user_id (group_names : list string) upn w :
  exists (results : gmap string bool) (w' : world),
    add_to_groups client user_id group_names upn w = (w', Ret results) /\
    dom results = list_to_set group_names /\
    (forall name, name ∈ group_names -> exists b : bool, results !! name = Some b) /\
    group_lookups (log w')
      = (rev (map display_name_filter group_names) ++ group_lookups (log w))%list /\
    (forall pre name post w1 r1 w2 r2,
       group_names = (pre ++ name :: post)%list ->
       name ∉ post ->
       add_to_groups_loop client user_id pre ∅ w = (w1, Ret r1) ->
       add_to_group client user_id name r1 w1 = (w2, Ret r2) ->
       raised_already_member (log w2) = true ->
       results !! name = Some true).
Proof.
  rewrite add_to_groups_is_loop.
  destruct (add_to_groups_loop_total user_id group_names ∅ w)
    as (results & w' & Hloop & _ & Hdom & Hlook & _).
  exists results, w'.
  assert (Hkeys : dom results = list_to_set group_names) by (rewrite Hdom; set_solver).
  clear Hdom; rename Hkeys into Hdom.
  split; [exact Hloop |]. split; [exact Hdom |]. split; [| split; [exact Hlook |]].
  - intros name Hin.
    assert (Hd : name ∈ dom results) by (rewrite Hdom; set_solver).
    apply elem_of_dom in Hd as [b Hb]. eauto.
  - intros pre name post w1 r1 w2 r2 -> Hlast Hpre Hturn Hmember.
    rewrite (add_to_groups_loop_app _ _ _ post _ _ _ _ _ _ Hpre Hturn) in Hloop.
    destruct (add_to_group_turn user_id name r1 w1) as (b & w2' & Hturn' & _ & _ & Hb).
    rewrite Hturn in Hturn'. injection Hturn' as <- ->.
    destruct (add_to_groups_loop_total user_id post (<[name := b]> r1) w2)
      as (results' & w'' & Hpost & _ & _ & _ & Hframe).
    rewrite Hpost in Hloop. injection Hloop as <- <-.
    rewrite (Hframe name Hlast), lookup_insert_eq, (Hb Hmember). reflexivity.
Qed.

End GroupFacts.

(** ** What a computation can do *)

Section Effects.

Context {A B : Type}.

Lemma total_halts (m : M A) : total m -> halts m.
Proof. intros Hm w. destruct (Hm w) as (w' & a & ->). discriminate. Qed.

Lemma total_ret (a : A) : total (ret a).
Proof. intros w. exists w, a. reflexivity. Qed.

Lemma halts_ret (a : A) : halts (ret a).
Proof. intros w. discriminate. Qed.

Lemma halts_raise (e : exn) : halts (@raise A e).
Proof. intros w. discriminate. Qed.

Lemma halts_remote r (answer : list event -> outcome A) : halts (remote r answer).
Proof. intros w. unfold remote. destruct (answer (log w)); discriminate. Qed.

Lemma total_bind (m : M A) (k : A -> M B) :
  total m -> (forall a, total (k a)) -> total (bind m k).
Proof.
  intros Hm Hk w. unfold bind. destruct (Hm w) as (w1 & a & ->). apply Hk.
Qed.

Lemma halts_bind (m : M A) (k : A -> M B) :
  halts m -> (forall a, halts (k a)) -> halts (bind m k).
Proof.
  intros Hm Hk w. unfold bind. specialize (Hm w).
  destruct (m w) as [w1 [a | e |]]; simpl in *; [apply Hk | discriminate | congruence].
Qed.

Lemma total_try_except (m : M A) (h : exn -> M A) :
  halts m -> (forall e, total (h e)) -> total (try_except m h).
Proof.
  intros Hm Hh w. unfold try_except. specialize (Hm w).
  destruct (m w) as [w1 [a | e |]]; simpl in *; [eauto | apply Hh | congruence].
Qed.

Context {X : Type} (obs : event -> option X).

Lemma silent_ret (a : A) : silent obs (ret a).
Proof. intros w. reflexivity. Qed.

Lemma silent_raise (e : exn) : silent obs (@raise A e).
Proof. intros w. reflexivity. Qed.

Lemma silent_remote r (answer : list event -> outcome A) :
  (forall o, obs (Call r o) = None) -> silent obs (remote r answer).
Proof.
  intros Hobs w. unfold remote.
  destruct (answer (log w)); simpl; now rewrite Hobs.
Qed.

Lemma silent_bind (m : M A) (k : A -> M B) :
  silent obs m -> (forall a, silent obs (k a)) -> silent obs (bind m k).
Proof.
  intros Hm Hk w. unfold bind. specialize (Hm w).
  destruct (m w) as [w1 [a | e |]]; simpl in *; try exact Hm.
  rewrite <- Hm. apply Hk.
Qed.

Lemma silent_try_except (m : M A) (h : exn -> M A) :
  silent obs m -> (forall e, silent obs (h e)) -> silent obs (try_except m h).
Proof.
  intros Hm Hh w. unfold try_except. specialize (Hm w).
  destruct (m w) as [w1 [a | e |]]; simpl in *; try exact Hm.
  rewrite <- Hm. apply Hh.
Qed.

Lemma draws_nothing_ret (a : A) : draws_nothing (ret a).
Proof. intros w. reflexivity. Qed.

Lemma draws_nothing_raise (e : exn) : draws_nothing (@raise A e).
Proof. intros w. reflexivity. Qed.

Lemma draws_nothing_remote r (answer : list event -> outcome A) :
  draws_nothing (remote r answer).
Proof. intros w. unfold remote. destruct (answer (log w)); reflexivity. Qed.

Lemma draws_nothing_bind (m : M A) (k : A -> M B) :
  draws_nothing m -> (forall a, draws_nothing (k a)) -> draws_nothing (bind m k).
Proof.
  intros Hm Hk w. unfold bind. specialize (Hm w).
  destruct (m w) as [w1 [a | e |]]; simpl in *; try exact Hm.
  rewrite <- Hm. apply Hk.
Qed.

Lemma draws_nothing_try_except (m : M A) (h : exn -> M A) :
  draws_nothing m -> (forall e, draws_nothing (h e)) -> draws_nothing (try_except m h).
Proof.
  intros Hm Hh w. unfold try_except. specialize (Hm w).
  destruct (m w) as [w1 [a | e |]]; simpl in *; try exact Hm.
  rewrite <- Hm. apply Hh.
Qed.

End Effects.

Lemma silent_sleep {X} (obs : event -> option X) seconds :
  obs (Sleep seconds) = None -> silent obs (sleep seconds).
Proof. intros Hobs w. simpl. now rewrite Hobs. Qed.

Lemma total_sleep seconds : total (sleep seconds).
Proof. intros w. eexists _, tt. reflexivity. Qed.

Ltac effects :=
  repeat first
    [ match goal with |- forall _, _ => intro end
    | apply silent_ret | apply silent_raise | apply silent_sleep
    | apply silent_remote | apply silent_bind | apply silent_try_except
    | apply draws_nothing_ret | apply draws_nothing_raise
    | apply draws_nothing_remote | apply draws_nothing_bind
    | apply draws_nothing_try_except
    | apply total_ret | apply total_sleep | apply total_bind
    | apply total_try_except
    | apply halts_ret | apply halts_raise | apply halts_remote | apply halts_bind
    | match goal with
      | |- silent _ (match ?x with _ => _ end) => destruct x
      | |- draws_nothing (match ?x with _ => _ end) => destruct x
      | |- total (match ?x with _ => _ end) => destruct x
      | |- halts (match ?x with _ => _ end) => destruct x
      end
    | reflexivity | assumption | solve [eauto] ].

(** ** The steps of the workflow *)

Section StepFacts.

Variable client : GraphServiceClient.
Variable sku_cache : option (gmap string string).
Variable entropy : nat -> nat.

Context {X : Type} (obs : event -> option X).

(** *** Validation *)

Lemma check_duplicate_total upn : total (check_duplicate client upn).
Proof. unfold check_duplicate. effects. Qed.

Lemma check_manager_total manager_email : total (check_manager client manager_email).
Proof. unfold check_manager. effects. Qed.

Lemma validate_user_data_halts user_data : halts (validate_user_data client user_data).
Proof.
  unfold validate_user_data, as_str.
  apply halts_bind; [apply total_halts, check_duplicate_total | intros dup].
  apply halts_bind; [apply total_halts, check_manager_total | intros mgr].
  effects.
Qed.

Lemma validate_user_data_silent user_data :
  (forall f o, obs (Call (UsersGet f) o) = None) ->
  silent obs (validate_user_data client user_data).
Proof.
  intros Hobs.
  unfold validate_user_data, check_duplicate, check_manager, as_str. effects.
Qed.

Lemma validate_user_data_draws_nothing user_data :
  draws_nothing (validate_user_data client user_data).
Proof.
  unfold validate_user_data, check_duplicate, check_manager, as_str. effects.
Qed.

(** *** Account creation *)

Lemma draw_password_silent fuel : silent obs (draw_password entropy fuel).
Proof.
  intros w. unfold draw_password.
  destruct (generate_password _ _ _ _) as [[pw k] |]; reflexivity.
Qed.

Lemma create_user_silent fuel user_data :
  (forall u o, obs (Call (UsersPost u) o) = None) ->
  silent obs (create_user client entropy fuel user_data).
Proof.
  intros Hobs. unfold create_user, subscript, as_str, optional_field, subscript.
  effects; apply draw_password_silent.
Qed.

(** *** License assignment *)

Lemma assign_license_try_halts user_id license_type :
  halts (assign_license_try client sku_cache user_id license_type).
Proof. unfold assign_license_try. effects. Qed.

Lemma assign_license_loop_total user_id license_type attempts retry_delay :
  total (assign_license_loop client sku_cache user_id license_type attempts retry_delay).
Proof.
  revert retry_delay.
  induction attempts as [| attempt rest IH]; intros retry_delay; simpl.
  - effects.
  - apply total_try_except; [apply assign_license_try_halts |].
    intros e. effects.
Qed.

Lemma assign_license_total user_id license_type upn :
  total (assign_license client sku_cache user_id license_type upn).
Proof.
  unfold assign_license. destruct (String.eqb _ _).
  - apply total_ret.
  - apply assign_license_loop_total.
Qed.

Lemma assign_license_loop_silent user_id license_type attempts retry_delay :
  (forall u s o, obs (Call (AssignLicensePost u s) o) = None) ->
  (forall n, obs (Sleep n) = None) ->
  silent obs
    (assign_license_loop client sku_cache user_id license_type attempts retry_delay).
Proof.
  intros Hcall Hsleep. revert retry_delay.
  induction attempts as [| attempt rest IH]; intros retry_delay; simpl.
  - effects.
  - unfold assign_license_try. effects.
Qed.

Lemma assign_license_silent user_id license_type upn :
  (forall u s o, obs (Call (AssignLicensePost u s) o) = None) ->
  (forall n, obs (Sleep n) = None) ->
  silent obs (assign_license client sku_cache user_id license_type upn).
Proof.
  intros Hcall Hsleep. unfold assign_license. destruct (String.eqb _ _).
  - apply silent_ret.
  - now apply assign_license_loop_silent.
Qed.

(** *** Group membership *)

Lemma add_to_groups_total user_id group_names upn :
  total (add_to_groups client user_id group_names upn).
Proof.
  intros w. rewrite add_to_groups_is_loop.
  destruct (add_to_groups_loop_total client user_id group_names ∅ w)
    as (results & w' & Hloop & _).
  eauto.
Qed.

Lemma add_to_groups_loop_silent user_id group_names results :
  (forall f o, obs (Call (GroupsGet f) o) = None) ->
  (forall g d o, obs (Call (MembersRefPost g d) o) = None) ->
  silent obs (add_to_groups_loop client user_id group_names results).
Proof.
  intros Hget Hpost. revert results.
  induction group_names as [| name rest IH]; intros results; simpl.
  - effects.
  - unfold add_to_group. effects.
Qed.

Lemma add_to_groups_silent user_id group_names upn :
  (forall f o, obs (Call (GroupsGet f) o) = None) ->
  (forall g d o, obs (Call (MembersRefPost g d) o) = None) ->
  silent obs (add_to_groups client user_id group_names upn).
Proof.
  intros Hget Hpost w. rewrite add_to_groups_is_loop.
  now apply add_to_groups_loop_silent.
Qed.

(** *** Mailbox and rollback: one remote call each, never an exception *)

Lemma configure_mailbox_once user_id license_type upn delegation_email w :
  exists (b : bool) (raised : option exn),
    configure_mailbox client user_id license_type upn delegation_email w
    = (record (Call (UserPatch user_id "W. Europe Standard Time") raised) w, Ret b).
Proof.
  unfold configure_mailbox, try_except, bind, remote, ret.
  destruct (user_patch client user_id _ (log w)) as [[] | e]; eauto.
Qed.

Lemma rollback_user_creation_once user_id upn w :
  exists raised : option exn,
    rollback_user_creation client user_id upn w
    = (record (Call (UserDelete user_id) raised) w, Ret tt).
Proof.
  unfold rollback_user_creation, try_except, remote, ret.
  destruct (user_delete client user_id (log w)) as [[] | e]; eauto.
Qed.

End StepFacts.

Lemma silent_step {X A} (obs : event -> option X) (m : M A) w w' r :
  silent obs m -> m w = (w', r) -> omap obs (log w') = omap obs (log w).
Proof. intros Hm Hrun. specialize (Hm w). now rewrite Hrun in Hm. Qed.

Lemma truthy_text (d : gmap string pyval) k :
  truthy (dict_get d k) = true ->
  exists s, d !! k = Some (PyStr s) /\ s <> "".
Proof.
  unfold dict_get. destruct (d !! k) as [[| s] |]; simpl; try discriminate.
  intros Hs. exists s. split; [reflexivity |].
  intros ->. discriminate.
Qed.

Section ValidationFacts.

Variable client : GraphServiceClient.

(** [validate_user_data] runs both remote checks, whatever they answer,
    and then either returns every error found or trips over a license
    cell that holds [None]. *)
Lemma validate_user_data_unfold user_data w :
  exists w1 w2 duplicate manager,
    check_duplicate client (proposed_upn user_data) w = (w1, Ret duplicate) /\
    check_manager client (dict_get user_data "manager_email") w1 = (w2, Ret manager) /\
    validate_user_data client user_data w =
      match dict_get_default user_data "license_type" (PyStr "") with
      | PyStr license_type =>
          let errors := all_errors user_data duplicate manager license_type in
          (w2, Ret (Nat.eqb (length errors) 0, errors))
      | PyNone =>
          (w2, Raise (AttributeError "'NoneType' object has no attribute 'upper'"))
      end.
Proof.
  destruct (check_duplicate_total client (proposed_upn user_data) w)
    as (w1 & duplicate & Hdup).
  destruct (check_manager_total client (dict_get user_data "manager_email") w1)
    as (w2 & manager & Hmgr).
  exists w1, w2, duplicate, manager. split; [exact Hdup |]. split; [exact Hmgr |].
  unfold validate_user_data, bind. fold (proposed_upn user_data).
  rewrite Hdup, Hmgr.
  destruct (dict_get_default user_data "license_type" (PyStr "")); reflexivity.
Qed.

(** Every required field that is missing or empty is reported, and so
    is everything else the checks found: the list is their concatenation. *)
Lemma check_required_complete user_data field :
  field ∈ required_fields ->
  truthy (dict_get user_data field) = false ->
  ("Missing required field: " +:+ field) ∈ check_required user_data.
Proof.
  intros Hfield Hmissing. unfold check_required.
  apply list_elem_of_In, in_flat_map. exists field.
  split; [now apply list_elem_of_In |].
  rewrite Hmissing. now left.
Qed.

Lemma all_errors_complete user_data duplicate manager license_type e :
  e ∈ check_required user_data \/ e ∈ check_upn_format (proposed_upn user_data) \/
  e ∈ duplicate \/ e ∈ manager \/ e ∈ check_license (Text.upper license_type) ->
  e ∈ all_errors user_data duplicate manager license_type.
Proof. unfold all_errors. set_solver. Qed.

(** The flag is [True] exactly when no error was collected. *)
Lemma validate_user_data_flag user_data w w' valid errs :
  validate_user_data client user_data w = (w', Ret (valid, errs)) ->
  (valid = true <-> errs = []).
Proof.
  destruct (validate_user_data_unfold user_data w)
    as (w1 & w2 & duplicate & manager & _ & _ & ->).
  destruct (dict_get_default user_data "license_type" (PyStr "")); [discriminate |].
  simpl. intros [= _ <- <-].
  destruct (all_errors user_data duplicate manager s); simpl; split;
    congruence.
Qed.

Lemma check_required_license user_data :
  check_required user_data = [] ->
  truthy (dict_get user_data "license_type") = true.
Proof.
  unfold check_required, required_fields. simpl.
  destruct (truthy (dict_get user_data "first_name")); [| discriminate].
  destruct (truthy (dict_get user_data "last_name")); [| discriminate].
  destruct (truthy (dict_get user_data "user_principal_name")); [| discriminate].
  destruct (truthy (dict_get user_data "license_type")); [reflexivity | discriminate].
Qed.

(** A row that passes validation has a non-empty text in its license
    cell. *)
Lemma validate_user_data_license user_data w w' errs :
  validate_user_data client user_data w = (w', Ret (true, errs)) ->
  exists license_type,
    user_data !! "license_type" = Some (PyStr license_type) /\ license_type <> "".
Proof.
  intros Hval.
  assert (Herrs : errs = []) by (now apply (validate_user_data_flag _ _ _ _ _ Hval)).
  subst errs.
  destruct (validate_user_data_unfold user_data w)
    as (w1 & w2 & duplicate & manager & _ & _ & Heq).
  rewrite Heq in Hval.
  destruct (dict_get_default user_data "license_type" (PyStr "")); [discriminate |].
  simpl in Hval. injection Hval as _ _ Hall.
  unfold all_errors in Hall.
  do 4 (apply app_eq_nil in Hall as [Hall _]).
  apply truthy_text, check_required_license, Hall.
Qed.

End ValidationFacts.

Section CreationFacts.

Variable client : GraphServiceClient.
Variable entropy : nat -> nat.

(** A created account comes from one accepted [users.post], whose
    request carries the generated password, flagged for a change at
    the next sign-in; the returned information holds the id the
    service chose and that same password. *)
Lemma create_user_created fuel user_data w w' info :
  create_user client entropy fuel user_data w = (w', Ret (Some info)) ->
  exists new_user created k,
    generate_password entropy fuel default_length (drawn w)
      = Some (password new_user, k) /\
    users_post client new_user (log w) = Ok created /\
    log w' = Call (UsersPost new_user) None :: log w /\
    info_user_id info = id created /\
    info_temp_password info = password new_user /\
    force_change_password_next_sign_in new_user = true.
Proof.
  unfold create_user, bind, try_except, subscript, draw_password.
  destruct (user_data !! "user_principal_name") as [upn |]; simpl; [| discriminate].
  destruct (generate_password entropy fuel default_length (drawn w))
    as [[pw k] |] eqn:Hpw; simpl; [| discriminate].
  destruct (user_data !! "first_name") as [first |]; simpl; [| discriminate].
  destruct (user_data !! "last_name") as [last |]; simpl; [| discriminate].
  destruct upn as [| upn]; simpl; [discriminate |].
  unfold optional_field, subscript, bind, ret.
  destruct (truthy (dict_get user_data "department"));
    destruct (user_data !! "department");
    destruct (truthy (dict_get user_data "job_title"));
    destruct (user_data !! "job_title"); simpl; try discriminate;
    unfold remote; simpl;
    match goal with
    | |- context [users_post client ?u (log w)] =>
        destruct (users_post client u (log w)) as [created | e] eqn:Hpost;
        simpl; [| discriminate];
        intros [= <- <-]; exists u, created, k; simpl; auto 10
    end.
Qed.

End CreationFacts.

(** ** The orchestrator *)

Section Orchestrator.

Variable client : GraphServiceClient.
Variable sku_cache : option (gmap string string).
Variable entropy : nat -> nat.
Variable fuel : nat.
Variable user_data : gmap string pyval.

Lemma group_step_total user_id groups_cell :
  total (group_step client user_data user_id groups_cell).
Proof.
  unfold group_step. destruct (String.eqb _ _).
  - apply total_ret.
  - apply add_to_groups_total.
Qed.

(** Every result [onboard_user] returns is reached in one of these
    ways. *)
Lemma onboard_user_run w w' r :
  onboard_user client sku_cache entropy fuel user_data w = (w', Ret r) ->
  run client sku_cache entropy fuel user_data w w' r.
Proof.
  unfold onboard_user, bind. fold (reported_upn user_data).
  destruct (validate_user_data client user_data w)
    as [w1 [[valid errs] | e |]] eqn:Hval; try discriminate.
  destruct valid; simpl.
  2: { intros [= <- <-]. now apply Rejected. }
  destruct (create_user client entropy fuel user_data w1)
    as [w2 [[info |] | e |]] eqn:Hcreate; try discriminate.
  2: { intros [= <- <-]. now apply NotCreated with w1 errs. }
  destruct (validate_user_data_license _ _ _ _ _ Hval) as (license_type & Hcell & _).
  unfold sleep, guarded, subscript. rewrite Hcell. simpl.
  destruct (assign_license_total client sku_cache (info_user_id info) license_type
              (reported_upn user_data) (record (Sleep 2) w2))
    as (w3 & assigned & Hassign).
  rewrite Hassign. destruct assigned; simpl.
  - unfold dict_get_default.
    destruct (user_data !! "groups") as [[| groups_cell] |] eqn:Hgroups; simpl.
    + intros [= <- <-]. now apply GroupsUnreadable with w1 errs w2 license_type.
    + destruct (group_step_total (info_user_id info) groups_cell w3)
        as (w4 & groups & Hstep).
      unfold group_step in Hstep.
      destruct (String.eqb (Text.strip groups_cell) "") eqn:Hempty.
      * injection Hstep as <- <-. simpl.
        destruct (configure_mailbox_once client (info_user_id info) license_type
                    (reported_upn user_data)
                    (dict_get user_data "mailbox_delegation") w3)
          as (configured & raised & ->).
        intros [= <- <-].
        apply Completed with w1 errs w2 license_type w3 groups_cell; auto.
        -- unfold dict_get_default. now rewrite Hgroups.
        -- unfold group_step. now rewrite Hempty.
      * rewrite Hstep.
        destruct (configure_mailbox_once client (info_user_id info) license_type
                    (reported_upn user_data)
                    (dict_get user_data "mailbox_delegation") w4)
          as (configured & raised & ->).
        intros [= <- <-].
        apply Completed with w1 errs w2 license_type w3 groups_cell; auto.
        -- unfold dict_get_default. now rewrite Hgroups.
        -- unfold group_step. now rewrite Hempty.
    + destruct (configure_mailbox_once client (info_user_id info) license_type
                    (reported_upn user_data)
                  (dict_get user_data "mailbox_delegation") w3)
        as (configured & raised & ->).
      intros [= <- <-].
      apply Completed with w1 errs w2 license_type w3 ""; auto.
      unfold dict_get_default. now rewrite Hgroups.
  - destruct (rollback_user_creation_once client (info_user_id info)
                (reported_upn user_data) w3)
      as (raised & ->).
    intros [= <- <-].
    now apply RolledBack with w1 errs w2 license_type.
Qed.

End Orchestrator.

Section OrchestratorFacts.

Variable client : GraphServiceClient.
Variable sku_cache : option (gmap string string).
Variable entropy : nat -> nat.

Lemma group_step_silent {X} (obs : event -> option X) user_data user_id groups_cell :
  (forall f o, obs (Call (GroupsGet f) o) = None) ->
  (forall g d o, obs (Call (MembersRefPost g d) o) = None) ->
  silent obs (group_step client user_data user_id groups_cell).
Proof.
  intros Hget Hpost. unfold group_step. destruct (String.eqb _ _).
  - apply silent_ret.
  - now apply add_to_groups_silent.
Qed.

(** Up to the end of the license step, nothing is deleted and no
    mailbox is updated. *)
Lemma quiet_until_license {X} (obs : event -> option X)
    fuel user_data w w1 errs w2 info user_id license_type upn w3 b :
  (forall f o, obs (Call (UsersGet f) o) = None) ->
  (forall u o, obs (Call (UsersPost u) o) = None) ->
  (forall u s o, obs (Call (AssignLicensePost u s) o) = None) ->
  (forall n, obs (Sleep n) = None) ->
  validate_user_data client user_data w = (w1, Ret (true, errs)) ->
  create_user client entropy fuel user_data w1 = (w2, Ret (Some info)) ->
  assign_license client sku_cache user_id license_type upn (record (Sleep 2) w2)
    = (w3, Ret b) ->
  omap obs (log w3) = omap obs (log w).
Proof.
  intros Hget Hpost Hassign Hsleep Hval Hcreate Hlicense.
  rewrite (silent_step obs _ _ _ _
             (assign_license_silent client sku_cache obs _ _ _ Hassign Hsleep) Hlicense).
  assert (Hpause : omap obs (log (record (Sleep 2) w2)) = omap obs (log w2))
    by (simpl; now rewrite Hsleep).
  rewrite Hpause.
  rewrite (silent_step obs _ _ _ _
             (create_user_silent client entropy obs _ _ Hpost) Hcreate).
  exact (silent_step obs _ _ _ _ (validate_user_data_silent client obs _ Hget) Hval).
Qed.


(** The rollback path, step by step: once validation has accepted the
    row, [create_user] has returned an account and the license step has
    returned [False], [onboard_user] sends the deletion of that account
    as its next and last request, and returns the result as it stood
    before the deletion, whatever the deletion answered. *)
Lemma rollback_path fuel user_data w w1 errs w2 info license_type w3 :
  validate_user_data client user_data w = (w1, Ret (true, errs)) ->
  create_user client entropy fuel user_data w1 = (w2, Ret (Some info)) ->
  user_data !! "license_type" = Some (PyStr license_type) ->
  assign_license client sku_cache (info_user_id info) license_type
    (reported_upn user_data) (record (Sleep 2) w2) = (w3, Ret false) ->
  onboard_user client sku_cache entropy fuel user_data w
  = (record (Call (UserDelete (info_user_id info))
               (raised_by (user_delete client (info_user_id info) (log w3)))) w3,
     Ret (append_error "License assignment failed"
            (set_license_assigned false
               (set_created (info_temp_password info)
                  (initial_result (reported_upn user_data)))))).
Proof.
  intros Hval Hcreate Hcell Hassign.
  unfold onboard_user, bind. fold (reported_upn user_data).
  rewrite Hval. simpl. rewrite Hcreate.
  unfold sleep, guarded, subscript. rewrite Hcell. simpl.
  rewrite Hassign. simpl.
  unfold rollback_user_creation, try_except, remote.
  destruct (user_delete client (info_user_id info) (log w3)); reflexivity.
Qed.

(** C2: when validation has accepted the row, [create_user] has
    returned the account the service created for it ([users_post]
    answered [created] to the one creation request of the run) and the
    license step has then returned [False], [onboard_user] returns, and
    the next and last request it sends is the deletion of that very
    account: over the whole run the history gains exactly one deletion,
    for the id of [created]; the result has [success] false and lists
    "License assignment failed". *)
Theorem license_failure_rolls_back fuel user_data w w1 errs w2 info license_type w3 :
  validate_user_data client user_data w = (w1, Ret (true, errs)) ->
  create_user client entropy fuel user_data w1 = (w2, Ret (Some info)) ->
  user_data !! "license_type" = Some (PyStr license_type) ->
  assign_license client sku_cache (info_user_id info) license_type
    (reported_upn user_data) (record (Sleep 2) w2) = (w3, Ret false) ->
  exists new_user created w' r,
    onboard_user client sku_cache entropy fuel user_data w = (w', Ret r) /\
    users_post client new_user (log w1) = Ok created /\
    log w2 = Call (UsersPost new_user) None :: log w1 /\
    info_user_id info = id created /\
    accounts_created (log w') = new_user :: accounts_created (log w) /\
    log w' = Call (UserDelete (id created))
               (raised_by (user_delete client (id created) (log w3))) :: log w3 /\
    rollbacks (log w') = id created :: rollbacks (log w) /\
    success r = false /\
    "License assignment failed" ∈ errors r.
Proof.
  intros Hval Hcreate Hcell Hassign.
  destruct (create_user_created _ _ _ _ _ _ _ Hcreate)
    as (new_user & created & k & _ & Hpost & Hlog & Hid & _ & _).
  exists new_user, created. eexists. eexists.
  split; [exact (rollback_path _ _ _ _ _ _ _ _ _ Hval Hcreate Hcell Hassign) |].
  split; [exact Hpost |]. split; [exact Hlog |]. split; [exact Hid |].
  rewrite Hid. split; [| split; [reflexivity |]; split; [| split]].
  - unfold accounts_created.
    change (omap created_account_of (log w3)
            = new_user :: omap created_account_of (log w)).
    rewrite (silent_step created_account_of _ _ _ _
               (assign_license_silent client sku_cache created_account_of _ _ _
                  (fun _ _ _ => eq_refl) (fun _ => eq_refl)) Hassign).
    change (omap created_account_of (log w2)
            = new_user :: omap created_account_of (log w)).
    rewrite Hlog.
    change (new_user :: omap created_account_of (log w1)
            = new_user :: omap created_account_of (log w)).
    f_equal.
    exact (silent_step created_account_of _ _ _ _
             (validate_user_data_silent client created_account_of _
                (fun _ _ => eq_refl)) Hval).
  - unfold rollbacks.
    change (id created :: omap rollback_of (log w3)
            = id created :: omap rollback_of (log w)).
    f_equal.
    now apply (quiet_until_license rollback_of fuel user_data w w1 errs w2 info
                 (info_user_id info) license_type (reported_upn user_data) w3 false).
  - reflexivity.
  - simpl. set_solver.
Qed.

(** C10: on the rollback path (validation accepted the row,
    [create_user] returned the account, the license step returned
    [False]) [onboard_user] returns, its last event being the deletion
    of the created account; the result it returns has [user_created]
    true and [temp_password] set to the password that was generated for
    that account and posted with it, and it is, field by field, the
    result as it stood before the deletion: the deletion, whether it
    went through or raised, has changed nothing in it. *)
Theorem rollback_keeps_result fuel user_data w w1 errs w2 info license_type w3 :
  validate_user_data client user_data w = (w1, Ret (true, errs)) ->
  create_user client entropy fuel user_data w1 = (w2, Ret (Some info)) ->
  user_data !! "license_type" = Some (PyStr license_type) ->
  assign_license client sku_cache (info_user_id info) license_type
    (reported_upn user_data) (record (Sleep 2) w2) = (w3, Ret false) ->
  exists new_user created k w' r,
    onboard_user client sku_cache entropy fuel user_data w = (w', Ret r) /\
    generate_password entropy fuel default_length (drawn w1)
      = Some (password new_user, k) /\
    users_post client new_user (log w1) = Ok created /\
    log w2 = Call (UsersPost new_user) None :: log w1 /\
    log w' = Call (UserDelete (id created))
               (raised_by (user_delete client (id created) (log w3))) :: log w3 /\
    user_created r = true /\
    temp_password r = Some (password new_user) /\
    r = append_error "License assignment failed"
          (set_license_assigned false
             (set_created (password new_user)
                (initial_result (reported_upn user_data)))) /\
    r = {| upn := reported_upn user_data;
           success := false;
           user_created := true;
           license_assigned := false;
           groups_added := ∅;
           mailbox_configured := false;
           temp_password := Some (password new_user);
           errors := ["License assignment failed"] |}.
Proof.
  intros Hval Hcreate Hcell Hassign.
  destruct (create_user_created _ _ _ _ _ _ _ Hcreate)
    as (new_user & created & k & Hgen & Hpost & Hlog & Hid & Hpw & _).
  exists new_user, created, k. eexists. eexists.
  split; [exact (rollback_path _ _ _ _ _ _ _ _ _ Hval Hcreate Hcell Hassign) |].
  split; [exact Hgen |]. split; [exact Hpost |]. split; [exact Hlog |].
  rewrite Hid, Hpw. split_and!; reflexivity.
Qed.

(** Whenever [onboard_user] returns, the error list is empty exactly on
    success. *)
Lemma onboard_user_errors fuel user_data w w' r :
  onboard_user client sku_cache entropy fuel user_data w = (w', Ret r) ->
  (success r = false -> errors r <> []) /\
  (success r = true -> errors r = []).
Proof.
  intros Hrun. apply onboard_user_run in Hrun.
  destruct Hrun as
    [ w1 errs Hval
    | w1 errs w2 Hval Hcreate
    | w1 errs w2 info license_type w3 raised Hval Hcreate Hcell Hassign
    | w1 errs w2 info license_type w3 Hval Hcreate Hcell Hassign Hgroups
    | w1 errs w2 info license_type w3 groups_cell w4 groups raised configured
        Hval Hcreate Hcell Hassign Hgroups Hstep ];
    simpl; split; try discriminate; auto.
  intros _ Hnil.
  apply (validate_user_data_flag _ _ _ _ _ _ Hval) in Hnil. discriminate.
Qed.

(** *** When the orchestrator returns at all *)

Lemma validate_user_data_returns user_data w :
  user_data !! "license_type" <> Some PyNone ->
  exists w' valid errs,
    validate_user_data client user_data w = (w', Ret (valid, errs)).
Proof.
  intros Hcell.
  destruct (validate_user_data_unfold client user_data w)
    as (w1 & w2 & duplicate & manager & _ & _ & ->).
  unfold dict_get_default.
  destruct (user_data !! "license_type") as [[| license_type] |]; simpl; eauto.
  contradiction.
Qed.



Lemma check_required_upn user_data :
  check_required user_data = [] ->
  truthy (dict_get user_data "user_principal_name") = true.
Proof.
  unfold check_required, required_fields. simpl.
  destruct (truthy (dict_get user_data "first_name")); [| discriminate].
  destruct (truthy (dict_get user_data "last_name")); [| discriminate].
  destruct (truthy (dict_get user_data "user_principal_name"));
    [reflexivity | discriminate].
Qed.


End OrchestratorFacts.

(** C6: [validate_user_data] is to return its pair without raising, yet
    on a row whose license cell holds [None] (a CSV row that ends before
    the license column) it raises [AttributeError] after its remote
    checks: [.upper()] is called on what [.get('license_type', '')]
    returned, and the default only covers a missing key. *)
Theorem validate_user_data_raises_on_short_row :
  validate_user_data Examples.happy Examples.short_row Examples.w0
  = ({| log := [Call (UsersGet None) None]; drawn := 0 |},
     Raise (AttributeError "'NoneType' object has no attribute 'upper'")).
Proof. vm_compute. reflexivity. Qed.

(** C5: per-record errors are to end up in the result, yet on the same
    short row [onboard_user] returns no result at all: the validator's
    [AttributeError] goes through it, its call being outside the [try]. *)
Theorem onboard_user_raises_on_short_row :
  onboard_user Examples.happy Examples.tenant_cache Examples.stride7 5
    Examples.short_row Examples.w0
  = ({| log := [Call (UsersGet None) None]; drawn := 0 |},
     Raise (AttributeError "'NoneType' object has no attribute 'upper'")).
Proof. vm_compute. reflexivity. Qed.

(** C7: an error saying that the user is already a member is to count
    as success for the name, yet the error the Graph SDK raises for it
    maps the name to [False]: the test of line 316 reads the [message]
    attribute of the exception, which is [None] on that error (the
    service's text is in [e.error.message]), and "already exist" does
    not occur in [str(None).lower()]. *)
Theorem add_to_groups_misses_sdk_already_member :
  add_to_groups MoreExamples.sdk_already_member "u-1" ["Sales"] (PyStr "a@x.com")
    Examples.w0
  = ({| log := [Call (MembersRefPost "g-1"
                        "https://graph.microsoft.com/v1.0/directoryObjects/u-1")
                     (Some (APIError "None"));
                Call (GroupsGet "displayName eq 'Sales'") None];
        drawn := 0 |},
     Ret {[ "Sales" := false ]}).
Proof. vm_compute. reflexivity. Qed.

(** ** The theorems at work on concrete runs *)

Example add_to_groups_already_member :
  exists w',
    add_to_groups Examples.already_member_client "u-1" ["Sales"; "IT"] (PyStr "a@x.com")
      Examples.w0 = (w', Ret {[ "Sales" := true; "IT" := true ]}).
Proof. eexists. vm_compute. reflexivity. Qed.


Lemma license_failure_rolls_back_witness :
  exists w' r,
    onboard_user Examples.refusing Examples.tenant_cache Examples.stride7 5
      Examples.row Examples.w0 = (w', Ret r) /\
    rollbacks (log w') = ["u-1"] /\
    success r = false /\
    "License assignment failed" ∈ errors r.
Proof.
  pose (w1 := (validate_user_data Examples.refusing Examples.row Examples.w0).1).
  pose (w2 := (create_user Examples.refusing Examples.stride7 5 Examples.row w1).1).
  pose (info := {| info_user_id := "u-1";
                   info_upn := PyStr "a@x.com";
                   info_display_name := PyStr "A B";
                   info_temp_password := "ahovCJQX4@ahovCJ";
                   info_created := true |}).
  pose (w3 := (assign_license Examples.refusing Examples.tenant_cache "u-1" "E3"
                 (reported_upn Examples.row) (record (Sleep 2) w2)).1).
  destruct (license_failure_rolls_back Examples.refusing Examples.tenant_cache
              Examples.stride7 5 Examples.row Examples.w0 w1 [] w2 info "E3" w3)
    as (new_user & created & w' & r & Hrun & _ & _ & Hid & _ & _ & Hroll & Hfail & Herr).
  - vm_compute. reflexivity.
  - vm_compute. reflexivity.
  - vm_compute. reflexivity.
  - vm_compute. reflexivity.
  - exists w', r. rewrite <- Hid in Hroll. auto.
Defined.

Lemma rollback_keeps_result_witness :
  exists w' r,
    onboard_user Examples.refusing Examples.tenant_cache Examples.stride7 5
      Examples.row Examples.w0 = (w', Ret r) /\
    rollbacks (log w') = ["u-1"] /\
    user_created r = true /\
    temp_password r = Some "ahovCJQX4@ahovCJ" /\
    r = {| upn := PyStr "a@x.com";
           success := false;
           user_created := true;
           license_assigned := false;
           groups_added := ∅;
           mailbox_configured := false;
           temp_password := Some "ahovCJQX4@ahovCJ";
           errors := ["License assignment failed"] |}.
Proof.
  pose (w1 := (validate_user_data Examples.refusing Examples.row Examples.w0).1).
  pose (w2 := (create_user Examples.refusing Examples.stride7 5 Examples.row w1).1).
  pose (info := {| info_user_id := "u-1";
                   info_upn := PyStr "a@x.com";
                   info_display_name := PyStr "A B";
                   info_temp_password := "ahovCJQX4@ahovCJ";
                   info_created := true |}).
  pose (w3 := (assign_license Examples.refusing Examples.tenant_cache "u-1" "E3"
                 (reported_upn Examples.row) (record (Sleep 2) w2)).1).
  destruct (rollback_keeps_result Examples.refusing Examples.tenant_cache
              Examples.stride7 5 Examples.row Examples.w0 w1 [] w2 info "E3" w3)
    as (new_user & created & k & w' & r & Hrun & Hgen & _ & _ & _ & Hcreated & Hpw
        & _ & Hr).
  - vm_compute. reflexivity.
  - vm_compute. reflexivity.
  - vm_compute. reflexivity.
  - vm_compute. reflexivity.
  - assert (Hfirst : generate_password Examples.stride7 5 default_length (drawn w1)
                     = Some ("ahovCJQX4@ahovCJ", 16)) by (vm_compute; reflexivity).
    rewrite Hfirst in Hgen. injection Hgen as Hpassword _.
    rewrite <- Hpassword in Hpw, Hr.
    exists w', r. split; [exact Hrun |].
    split; [change w' with (w', Ret r).1; rewrite <- Hrun; vm_compute; reflexivity |].
    auto.
Defined.

(** * Further properties of the module *)

(** ** The SKU cache *)

Lemma fill_sku_cache_filled skus cache cache' :
  fill_sku_cache skus cache = (cache', Ok tt) ->
  dom cache' = list_to_set (map part_number skus) ∪ dom cache /\
  (forall k, k ∉ map part_number skus -> cache' !! k = cache !! k) /\
  (forall pre sku post,
     skus = (pre ++ sku :: post)%list ->
     part_number sku ∉ map part_number post ->
     cache' !! part_number sku = Some (sku_guid sku)).
Proof.
  revert cache. induction skus as [| s rest IH]; intros cache; simpl.
  - intros [= <-]. split; [set_solver |]. split; [auto |].
    intros [| ? ?] ? ? Heq; discriminate.
  - destruct (available s); [| discriminate]. intros Hfill.
    destruct (IH _ Hfill) as (Hdom & Hframe & Hlast).
    split; [| split].
    + rewrite Hdom, dom_insert_L. set_solver.
    + intros k Hk. apply not_elem_of_cons in Hk as [Hne Hk].
      rewrite (Hframe k Hk). now apply lookup_insert_ne.
    + intros [| p pre] sku post Heq Hnot; simpl in Heq.
      * injection Heq as <- <-.
        rewrite (Hframe _ Hnot). apply lookup_insert_eq.
      * injection Heq as <- ->. now apply (Hlast pre sku post).
Qed.

(** X1: after a successful [initialize_sku_cache] the cache holds exactly
    the part numbers the tenant listed, each with the id of the last SKU
    listed under it; what the cache held before is gone. *)
Theorem initialize_sku_cache_last_wins skus old cache :
  initialize_sku_cache (Ok skus) old = (Some cache, Ok tt) ->
  dom cache = list_to_set (map part_number skus) /\
  forall pre sku post,
    skus = (pre ++ sku :: post)%list ->
    part_number sku ∉ map part_number post ->
    cache !! part_number sku = Some (sku_guid sku).
Proof.
  unfold initialize_sku_cache.
  destruct (fill_sku_cache skus ∅) as [filled ended] eqn:Hfill.
  intros [= <- ->].
  destruct (fill_sku_cache_filled _ _ _ Hfill) as (Hdom & _ & Hlast).
  split; [| exact Hlast].
  rewrite Hdom. set_solver.
Qed.

Lemma initialize_sku_cache_last_wins_witness :
  exists cache,
    initialize_sku_cache
      (Ok [MoreExamples.e3_sku; MoreExamples.e5_sku; MoreExamples.e3_sku_again]) None
    = (Some cache, Ok tt) /\
    dom cache = {[ "SPE_E3"; "SPE_E5" ]} /\
    cache !! "SPE_E3" = Some "sku-2" /\
    cache !! "SPE_E5" = Some "sku-5".
Proof.
  destruct (fill_sku_cache
              [MoreExamples.e3_sku; MoreExamples.e5_sku; MoreExamples.e3_sku_again] ∅)
    as [cache ended] eqn:Hfill.
  assert (Hended : ended = Ok tt) by (vm_compute in Hfill; congruence).
  subst ended. exists cache.
  assert (Hinit : initialize_sku_cache
                    (Ok [MoreExamples.e3_sku; MoreExamples.e5_sku;
                         MoreExamples.e3_sku_again]) None
                  = (Some cache, Ok tt))
    by (unfold initialize_sku_cache; now rewrite Hfill).
  destruct (initialize_sku_cache_last_wins _ _ _ Hinit) as [Hdom Hlast].
  split; [exact Hinit |]. split; [| split].
  - rewrite Hdom. simpl. set_solver.
  - apply (Hlast [MoreExamples.e3_sku; MoreExamples.e5_sku] MoreExamples.e3_sku_again []);
      [reflexivity | set_solver].
  - apply (Hlast [MoreExamples.e3_sku] MoreExamples.e5_sku [MoreExamples.e3_sku_again]);
      [reflexivity | simpl; set_solver].
Defined.

(** X2: on a tenant that lists no SKU, [initialize_sku_cache] succeeds
    with an empty cache, which [get_sku_id] takes for a cache that was
    never initialised: it raises [RuntimeError] for every tier, "NONE"
    included; [assign_license] then returns [True] for "NONE" and
    [False] for every other tier, without a remote call or a delay. *)
Theorem empty_tenant_disables_licensing client old cache ended
    user_id license_type upn w :
  initialize_sku_cache (Ok []) old = (cache, ended) ->
  ended = Ok tt /\
  get_sku_id cache license_type
  = Err (RuntimeError "SKU cache not initialized. Call initialize_sku_cache() first.") /\
  assign_license client cache user_id license_type upn w
  = (w, Ret (String.eqb (Text.upper license_type) "NONE")).
Proof.
  unfold initialize_sku_cache. simpl. intros [= <- <-].
  split; [reflexivity |]. split; [reflexivity |].
  unfold assign_license.
  destruct (String.eqb (Text.upper license_type) "NONE"); reflexivity.
Qed.

Lemma empty_tenant_disables_licensing_witness :
  get_sku_id (Some ∅) "NONE"
  = Err (RuntimeError "SKU cache not initialized. Call initialize_sku_cache() first.") /\
  assign_license Examples.happy (Some ∅) "u-1" "E3" (PyStr "a@x.com") Examples.w0
  = (Examples.w0, Ret false).
Proof.
  destruct (empty_tenant_disables_licensing Examples.happy None (Some ∅) (Ok tt)
              "u-1" "NONE" (PyStr "a@x.com") Examples.w0 eq_refl) as (_ & Hget & _).
  destruct (empty_tenant_disables_licensing Examples.happy None (Some ∅) (Ok tt)
              "u-1" "E3" (PyStr "a@x.com") Examples.w0 eq_refl) as (_ & _ & Hassign).
  split; [exact Hget | exact Hassign].
Defined.

(** ** The password loop *)

Section PasswordLoop.

Variable entropy : nat -> nat.

Lemma nth_candidate_shift length k i :
  nth_candidate entropy length (k + length) i = nth_candidate entropy length k (S i).
Proof. unfold nth_candidate. f_equal. simpl. lia. Qed.

Lemma nth_candidate_first length k :
  nth_candidate entropy length k 0 = candidate entropy length k.
Proof. unfold nth_candidate. f_equal. simpl. lia. Qed.

(** X3: [generate_password] is rejection sampling: it returns exactly
    the first window of [length] draws that passes the complexity test,
    having consumed every window up to it, provided that window comes
    within the rounds allowed; the password has the requested length. *)
Theorem generate_password_first_accepted fuel length k pw k' :
  (generate_password entropy fuel length k = Some (pw, k') ->
   String.length pw = length) /\
  (generate_password entropy fuel length k = Some (pw, k') <->
   exists i,
     i < fuel /\
     (forall j, j < i -> complex_enough (nth_candidate entropy length k j) = false) /\
     complex_enough (nth_candidate entropy length k i) = true /\
     pw = nth_candidate entropy length k i /\
     k' = k + S i * length).
Proof.
  assert (Hiff :
    generate_password entropy fuel length k = Some (pw, k') <->
    exists i,
      i < fuel /\
      (forall j, j < i -> complex_enough (nth_candidate entropy length k j) = false) /\
      complex_enough (nth_candidate entropy length k i) = true /\
      pw = nth_candidate entropy length k i /\
      k' = k + S i * length).
  { revert k. induction fuel as [| fuel IH]; intros k; simpl.
    - split; [discriminate | intros (i & Hi & _); lia].
    - destruct (complex_enough (candidate entropy length k)) eqn:Hfirst.
      + split.
        * intros [= <- <-]. exists 0. rewrite nth_candidate_first.
          repeat split; [lia | intros j Hj; lia | exact Hfirst | lia].
        * intros (i & Hi & Hrejected & Haccepted & -> & ->).
          destruct i as [| i].
          -- rewrite nth_candidate_first. do 2 f_equal. lia.
          -- specialize (Hrejected 0 ltac:(lia)).
             rewrite nth_candidate_first in Hrejected. congruence.
      + rewrite IH. split.
        * intros (i & Hi & Hrejected & Haccepted & -> & ->).
          exists (S i). rewrite <- !nth_candidate_shift.
          repeat split; [lia | | exact Haccepted | simpl; lia].
          intros [| j] Hj.
          -- now rewrite nth_candidate_first.
          -- rewrite <- nth_candidate_shift. apply Hrejected. lia.
        * intros (i & Hi & Hrejected & Haccepted & -> & ->).
          destruct i as [| i].
          -- rewrite nth_candidate_first in Haccepted. congruence.
          -- exists i. rewrite !nth_candidate_shift.
             repeat split; [lia | | exact Haccepted | simpl; lia].
             intros j Hj. rewrite nth_candidate_shift. apply Hrejected. lia. }
  split; [| exact Hiff].
  intros Hgen. apply Hiff in Hgen as (i & _ & _ & _ & -> & _).
  apply candidate_length.
Qed.

End PasswordLoop.

(** A character falls in at most one of the four classes. *)
Lemma one_class_per_char c :
  (if Text.islower c then 1 else 0) + (if Text.isupper c then 1 else 0)
  + (if Text.isdigit c then 1 else 0) + (if is_symbol c then 1 else 0) <= 1.
Proof.
  destruct c as [b0 b1 b2 b3 b4 b5 b6 b7].
  destruct b0, b1, b2, b3, b4, b5, b6, b7; vm_compute; lia.
Qed.

Lemma any_counts p s : Text.any p s = true -> 1 <= count_chars p s.
Proof.
  induction s as [| c s IH]; simpl; [discriminate |].
  destruct (p c); simpl; [lia | exact IH].
Qed.

Lemma classes_fit s :
  count_chars Text.islower s + count_chars Text.isupper s
  + count_chars Text.isdigit s + count_chars is_symbol s <= String.length s.
Proof.
  induction s as [| c s IH]; simpl; [lia |].
  pose proof (one_class_per_char c). lia.
Qed.

Lemma complex_enough_needs_four s :
  complex_enough s = true -> 4 <= String.length s.
Proof.
  unfold complex_enough. intros Hok.
  apply andb_prop in Hok as [Hok Hsym].
  apply andb_prop in Hok as [Hok Hdig].
  apply andb_prop in Hok as [Hlow Hupp].
  apply any_counts in Hlow, Hupp, Hdig, Hsym.
  pose proof (classes_fit s). lia.
Qed.

(** X4: a password of fewer than 4 characters cannot hold one character
    of each of the four classes, so for a requested length below 4 the
    loop of [generate_password] never ends: no number of rounds yields a
    password. *)
Theorem generate_password_short_never_returns entropy fuel length k :
  length < 4 ->
  generate_password entropy fuel length k = None.
Proof.
  intros Hshort. revert k. induction fuel as [| fuel IH]; intros k; simpl.
  - reflexivity.
  - destruct (complex_enough (candidate entropy length k)) eqn:Hok.
    + apply complex_enough_needs_four in Hok.
      rewrite candidate_length in Hok. lia.
    + apply IH.
Qed.

Lemma generate_password_short_never_returns_witness :
  generate_password Examples.stride7 1000 3 0 = None.
Proof.
  apply (generate_password_short_never_returns Examples.stride7 1000 3 0). lia.
Defined.

(** ** Validation *)

Section ValidationProperties.

Variable client : GraphServiceClient.

(** The duplicate check makes one unfiltered listing and reports the
    proposed name when the listing holds it; a listing that fails is
    passed over. *)
Lemma check_duplicate_cases upn w :
  check_duplicate client upn w
  = (record (Call (UsersGet None) (raised_by (users_get client None (log w)))) w,
     Ret match users_get client None (log w) with
         | Ok existing_upns =>
             if bool_decide (upn ∈ existing_upns)
             then ["User already exists: " +:+ str upn] else []
         | Err _ => []
         end).
Proof.
  unfold check_duplicate, try_except, bind, remote, ret.
  destruct (users_get client None (log w)) as [existing | e]; simpl; [| reflexivity].
  destruct (bool_decide (upn ∈ existing)); reflexivity.
Qed.

(** The manager check makes one filtered listing, only for a row that
    names a manager. *)
Lemma check_manager_cases manager_email w :
  check_manager client manager_email w
  = if truthy manager_email then
      (record (Call (UsersGet (Some (manager_filter (str manager_email))))
                 (raised_by (users_get client
                               (Some (manager_filter (str manager_email))) (log w)))) w,
       Ret match users_get client (Some (manager_filter (str manager_email))) (log w) with
           | Ok [] => ["Manager not found: " +:+ str manager_email]
           | _ => []
           end)
    else (w, Ret []).
Proof.
  unfold check_manager, manager_filter.
  destruct (truthy manager_email); [| reflexivity].
  unfold try_except, bind, remote, ret.
  destruct (users_get client _ (log w)) as [[| ? ?] | e]; reflexivity.
Qed.

(** What [validate_user_data] returned, piece by piece. *)
Lemma validate_user_data_pieces user_data w w' valid errs :
  validate_user_data client user_data w = (w', Ret (valid, errs)) ->
  exists duplicate manager license_type w1,
    check_duplicate client (proposed_upn user_data) w = (w1, Ret duplicate) /\
    check_manager client (dict_get user_data "manager_email") w1 = (w', Ret manager) /\
    dict_get_default user_data "license_type" (PyStr "") = PyStr license_type /\
    errs = all_errors user_data duplicate manager license_type /\
    valid = Nat.eqb (length errs) 0.
Proof.
  destruct (validate_user_data_unfold client user_data w)
    as (w1 & w2 & duplicate & manager & Hdup & Hmgr & ->).
  destruct (dict_get_default user_data "license_type" (PyStr "")) as [| license_type];
    [discriminate |].
  simpl. intros [= <- <- <-].
  exists duplicate, manager, license_type, w1. auto.
Qed.

(** X5: the validator does not stop at the first defect: whenever it
    returns, its list holds a message for every required field that is
    missing or empty, for a principal name without "@", for a principal
    name the directory listing holds, for a named manager the directory
    does not find, and for a license tier outside the mapping; and the
    flag is [True] exactly when the list is empty. *)
Theorem validate_user_data_reports_every_defect user_data w w' valid errs :
  validate_user_data client user_data w = (w', Ret (valid, errs)) ->
  (forall field, field ∈ required_fields ->
     truthy (dict_get user_data field) = false ->
     ("Missing required field: " +:+ field) ∈ errs) /\
  (forall s, user_data !! "user_principal_name" = Some (PyStr s) -> s <> "" ->
     Text.has_char "@" s = false -> ("Invalid UPN format: " +:+ s) ∈ errs) /\
  (forall existing, users_get client None (log w) = Ok existing ->
     proposed_upn user_data ∈ existing ->
     ("User already exists: " +:+ str (proposed_upn user_data)) ∈ errs) /\
  (forall m, user_data !! "manager_email" = Some (PyStr m) -> m <> "" ->
     (forall h, users_get client (Some (manager_filter m)) h = Ok []) ->
     ("Manager not found: " +:+ m) ∈ errs) /\
  (forall license_type, user_data !! "license_type" = Some (PyStr license_type) ->
     in_mapping (Text.upper license_type) = false ->
     ("Invalid license type: " +:+ Text.upper license_type
      +:+ ". Must be one of: E3, E5, INTUNE, NONE") ∈ errs) /\
  (valid = true <-> errs = []).
Proof.
  intros Hval.
  destruct (validate_user_data_pieces _ _ _ _ _ Hval)
    as (duplicate & manager & lt & w1 & Hdup & Hmgr & Hcell & -> & ->).
  rewrite check_duplicate_cases in Hdup. injection Hdup as <- <-.
  rewrite check_manager_cases in Hmgr.
  split; [| split; [| split; [| split; [| split]]]].
  - intros field Hfield Hmissing. apply all_errors_complete. left.
    now apply check_required_complete.
  - intros s Hs Hne Hat. apply all_errors_complete. right. left.
    unfold proposed_upn, dict_get_default. rewrite Hs. simpl.
    apply String.eqb_neq in Hne. rewrite Hne, Hat. simpl. set_solver.
  - intros existing Hlist Hin. apply all_errors_complete. right. right. left.
    rewrite Hlist. rewrite bool_decide_eq_true_2 by exact Hin. set_solver.
  - intros m Hm Hne Hnobody. apply all_errors_complete. right. right. right. left.
    unfold dict_get in Hmgr. rewrite Hm in Hmgr. simpl in Hmgr.
    apply String.eqb_neq in Hne. rewrite Hne in Hmgr. simpl in Hmgr.
    rewrite Hnobody in Hmgr. injection Hmgr as _ <-. set_solver.
  - intros license_type Hlt Hout. apply all_errors_complete. do 4 right.
    unfold dict_get_default in Hcell. rewrite Hlt in Hcell. injection Hcell as <-.
    unfold check_license. rewrite Hout. set_solver.
  - destruct (all_errors _ _ _ _); simpl; split; congruence.
Qed.

(** X6: a row the validator accepts has non-empty text in its four
    required cells, an "@" in its principal name and a tier of the
    mapping (in any letter case); if the directory could be listed the
    principal name is not in the listing, and if a manager is named the
    lookup of the manager did not come back empty. *)
Theorem validated_row_is_well_formed user_data w w' errs :
  validate_user_data client user_data w = (w', Ret (true, errs)) ->
  exists first_name last_name upn license_type,
    user_data !! "first_name" = Some (PyStr first_name) /\ first_name <> "" /\
    user_data !! "last_name" = Some (PyStr last_name) /\ last_name <> "" /\
    user_data !! "user_principal_name" = Some (PyStr upn) /\ upn <> "" /\
    user_data !! "license_type" = Some (PyStr license_type) /\ license_type <> "" /\
    Text.has_char "@" upn = true /\
    in_mapping (Text.upper license_type) = true /\
    (forall existing, users_get client None (log w) = Ok existing ->
       PyStr upn ∉ existing) /\
    (forall m, user_data !! "manager_email" = Some (PyStr m) -> m <> "" ->
       users_get client (Some (manager_filter m))
         (Call (UsersGet None) (raised_by (users_get client None (log w))) :: log w)
       <> Ok []).
Proof.
  intros Hval.
  destruct (validate_user_data_pieces _ _ _ _ _ Hval)
    as (duplicate & manager & lt & w1 & Hdup & Hmgr & Hcell & Herrs & Hflag).
  symmetry in Hflag. apply Nat.eqb_eq, nil_length_inv in Hflag. subst errs.
  unfold all_errors in Hflag.
  apply app_eq_nil in Hflag as [Hflag Hlicense].
  apply app_eq_nil in Hflag as [Hflag Hmanager].
  apply app_eq_nil in Hflag as [Hflag Hduplicate].
  apply app_eq_nil in Hflag as [Hrequired Hformat].
  subst duplicate manager.
  assert (Hcells : forall field, field ∈ required_fields ->
            exists s, user_data !! field = Some (PyStr s) /\ s <> "").
  { intros field Hfield. apply truthy_text.
    destruct (truthy (dict_get user_data field)) eqn:Hmissing; [reflexivity |].
    pose proof (check_required_complete user_data field Hfield Hmissing) as Hin.
    rewrite Hrequired in Hin. set_solver. }
  destruct (Hcells "first_name") as (first_name & Hfirst & Hfirst_ne);
    [unfold required_fields; set_solver |].
  destruct (Hcells "last_name") as (last_name & Hlast & Hlast_ne);
    [unfold required_fields; set_solver |].
  destruct (Hcells "user_principal_name") as (upn & Hupn & Hupn_ne);
    [unfold required_fields; set_solver |].
  destruct (Hcells "license_type") as (license_type & Hlt & Hlt_ne);
    [unfold required_fields; set_solver |].
  exists first_name, last_name, upn, license_type.
  unfold dict_get_default in Hcell. rewrite Hlt in Hcell. injection Hcell as <-.
  assert (Hproposed : proposed_upn user_data = PyStr upn)
    by (unfold proposed_upn, dict_get_default; now rewrite Hupn).
  rewrite Hproposed in *.
  rewrite check_duplicate_cases in Hdup. injection Hdup as <- Hdup.
  rewrite check_manager_cases in Hmgr.
  do 8 (split; [assumption |]).
  split; [| split; [| split]].
  - simpl in Hformat. apply String.eqb_neq in Hupn_ne. rewrite Hupn_ne in Hformat.
    simpl in Hformat. destruct (Text.has_char "@" upn); [reflexivity | discriminate].
  - unfold check_license in Hlicense.
    destruct (in_mapping (Text.upper license_type)); [reflexivity | discriminate].
  - intros existing Hlist Hin. rewrite Hlist in Hdup.
    rewrite bool_decide_eq_true_2 in Hdup by exact Hin. discriminate.
  - intros m Hm Hne Hnobody.
    unfold dict_get in Hmgr. rewrite Hm in Hmgr. simpl in Hmgr.
    apply String.eqb_neq in Hne. rewrite Hne in Hmgr. simpl in Hmgr.
    rewrite Hnobody in Hmgr. discriminate.
Qed.

(** X7: when the directory cannot be listed the duplicate check is
    passed over: for a row that names no manager the validator returns,
    after that one failed call, the errors of the row's own cells only,
    so a row that is clean in itself is accepted whether or not its
    principal name is taken. *)
Theorem validation_skips_duplicates_when_listing_fails user_data w e license_type :
  users_get client None (log w) = Err e ->
  truthy (dict_get user_data "manager_email") = false ->
  user_data !! "license_type" = Some (PyStr license_type) ->
  validate_user_data client user_data w
  = (record (Call (UsersGet None) (Some e)) w,
     Ret (Nat.eqb (length (all_errors user_data [] [] license_type)) 0,
          all_errors user_data [] [] license_type)).
Proof.
  intros Hlist Hmanager Hcell.
  destruct (validate_user_data_unfold client user_data w)
    as (w1 & w2 & duplicate & manager & Hdup & Hmgr & ->).
  rewrite check_duplicate_cases, Hlist in Hdup. injection Hdup as <- <-.
  rewrite check_manager_cases, Hmanager in Hmgr. injection Hmgr as <- <-.
  unfold dict_get_default. rewrite Hcell. reflexivity.
Qed.

End ValidationProperties.

Lemma validate_user_data_reports_every_defect_witness :
  exists w' errs,
    validate_user_data MoreExamples.strict_directory MoreExamples.bad_row Examples.w0
    = (w', Ret (false, errs)) /\
    "Missing required field: first_name" ∈ errs /\
    "Invalid UPN format: a.x.com" ∈ errs /\
    "User already exists: a.x.com" ∈ errs /\
    "Manager not found: nobody@x.com" ∈ errs /\
    "Invalid license type: E9. Must be one of: E3, E5, INTUNE, NONE" ∈ errs.
Proof.
  destruct (validate_user_data MoreExamples.strict_directory MoreExamples.bad_row
              Examples.w0) as [w' [[valid errs] | e |]] eqn:Hval;
    try (vm_compute in Hval; discriminate).
  assert (Hflag : valid = false) by (vm_compute in Hval; congruence).
  subst valid. exists w', errs. split; [reflexivity |].
  destruct (validate_user_data_reports_every_defect _ _ _ _ _ _ Hval)
    as (Hrequired & Hformat & Hduplicate & Hmanager & Hlicense & _).
  split; [| split; [| split; [| split]]].
  - apply (Hrequired "first_name"); [unfold required_fields; set_solver | reflexivity].
  - apply (Hformat "a.x.com"); [reflexivity | discriminate | reflexivity].
  - apply (Hduplicate [PyStr "a.x.com"]); [reflexivity |].
    change (proposed_upn MoreExamples.bad_row) with (PyStr "a.x.com"). set_solver.
  - apply (Hmanager "nobody@x.com"); [reflexivity | discriminate | reflexivity].
  - apply (Hlicense "E9"); reflexivity.
Defined.

Lemma validated_row_is_well_formed_witness :
  exists first_name last_name upn license_type,
    Examples.row !! "first_name" = Some (PyStr first_name) /\ first_name <> "" /\
    Examples.row !! "last_name" = Some (PyStr last_name) /\ last_name <> "" /\
    Examples.row !! "user_principal_name" = Some (PyStr upn) /\ upn <> "" /\
    Examples.row !! "license_type" = Some (PyStr license_type) /\ license_type <> "" /\
    Text.has_char "@" upn = true /\
    in_mapping (Text.upper license_type) = true /\
    (forall existing, users_get Examples.happy None (log Examples.w0) = Ok existing ->
       PyStr upn ∉ existing) /\
    (forall m, Examples.row !! "manager_email" = Some (PyStr m) -> m <> "" ->
       users_get Examples.happy (Some (manager_filter m))
         (Call (UsersGet None)
            (raised_by (users_get Examples.happy None (log Examples.w0)))
          :: log Examples.w0)
       <> Ok []).
Proof.
  apply (validated_row_is_well_formed Examples.happy Examples.row Examples.w0
           {| log := [Call (UsersGet None) None]; drawn := 0 |} []).
  vm_compute. reflexivity.
Defined.

Lemma validation_skips_duplicates_when_listing_fails_witness :
  validate_user_data MoreExamples.unlistable Examples.row Examples.w0
  = ({| log := [Call (UsersGet None) (Some (APIError "service unavailable"))];
        drawn := 0 |}, Ret (true, [])).
Proof.
  rewrite (validation_skips_duplicates_when_listing_fails MoreExamples.unlistable
             Examples.row Examples.w0 (APIError "service unavailable") "E3");
    reflexivity.
Defined.

(** ** Account creation *)

Section CreationProperties.

Variable client : GraphServiceClient.
Variable entropy : nat -> nat.

(** Every way [create_user] can go. *)
Lemma create_user_cases fuel user_data w w' r :
  create_user client entropy fuel user_data w = (w', r) ->
  (user_data !! "user_principal_name" = None /\ w' = w /\
   r = Raise (KeyError "user_principal_name")) \/
  (is_Some (user_data !! "user_principal_name") /\
   generate_password entropy fuel default_length (drawn w) = None /\
   w' = w /\ r = Loop) \/
  (exists pw k,
     is_Some (user_data !! "user_principal_name") /\
     generate_password entropy fuel default_length (drawn w) = Some (pw, k) /\
     w' = {| log := log w; drawn := k |} /\ r = Ret None) \/
  (exists pw k new_user,
     generate_password entropy fuel default_length (drawn w) = Some (pw, k) /\
     w' = {| log := Call (UsersPost new_user)
                      (raised_by (users_post client new_user (log w))) :: log w;
             drawn := k |} /\
     password new_user = pw /\
     account_enabled new_user = true /\
     force_change_password_next_sign_in new_user = true /\
     usage_location new_user = "NL" /\
     user_data !! "user_principal_name" = Some (user_principal_name new_user) /\
     user_data !! "first_name" = Some (given_name new_user) /\
     user_data !! "last_name" = Some (surname new_user) /\
     (exists s, user_principal_name new_user = PyStr s /\
                mail_nickname new_user = Text.before "@" s) /\
     r = Ret match users_post client new_user (log w) with
             | Ok created =>
                 Some {| info_user_id := id created;
                         info_upn := user_principal_name new_user;
                         info_display_name := created_display_name created;
                         info_temp_password := pw;
                         info_created := true |}
             | Err _ => None
             end).
Proof.
  unfold create_user, bind, try_except, subscript, draw_password.
  destruct (user_data !! "user_principal_name") as [upn |] eqn:Hupn; simpl.
  2: { intros [= <- <-]. auto. }
  destruct (generate_password entropy fuel default_length (drawn w))
    as [[pw k] |] eqn:Hpw; simpl.
  2: { intros [= <- <-]. right. left. eauto. }
  assert (Hquiet : forall x : world * res (option user_info),
            x = ({| log := log w; drawn := k |}, Ret None) ->
            x = (w', r) ->
            exists pw0 k0, is_Some (Some upn) /\ Some (pw, k) = Some (pw0, k0) /\
              w' = {| log := log w; drawn := k0 |} /\ r = Ret None).
  { intros x -> [= <- <-]. eauto 10. }
  destruct (user_data !! "first_name") as [first |] eqn:Hfirst; simpl.
  2: { intros Heq. right. right. left. now apply (Hquiet _ eq_refl). }
  destruct (user_data !! "last_name") as [last |] eqn:Hlast; simpl.
  2: { intros Heq. right. right. left. now apply (Hquiet _ eq_refl). }
  destruct upn as [| upn]; simpl.
  { intros Heq. right. right. left. now apply (Hquiet _ eq_refl). }
  clear Hquiet.
  unfold optional_field, subscript, bind, ret.
  destruct (truthy (dict_get user_data "department"));
    destruct (user_data !! "department");
    destruct (truthy (dict_get user_data "job_title"));
    destruct (user_data !! "job_title"); simpl;
    try (intros [= <- <-]; right; right; left; eauto 10);
    unfold remote; simpl;
    match goal with
    | |- context [users_post client ?u (log w)] =>
        intros Heq; do 3 right; exists pw, k, u;
        destruct (users_post client u (log w)) as [created | e] eqn:Hpost;
        simpl in Heq; injection Heq as <- <-; simpl;
        repeat split; eauto
    end.
Qed.

(** X8: [create_user] sends at most one request, an account creation,
    and every account it asks for is enabled, must change its password
    at the next sign-in, is located in "NL", takes the row's principal
    name with the part before the first "@" as mail nickname, and has a
    password of 16 characters that passes the complexity test. *)
Theorem create_user_posts_once fuel user_data w w' r :
  create_user client entropy fuel user_data w = (w', r) ->
  write_attempts (log w') = write_attempts (log w) \/
  exists new_user,
    write_attempts (log w') = UsersPost new_user :: write_attempts (log w) /\
    account_enabled new_user = true /\
    force_change_password_next_sign_in new_user = true /\
    usage_location new_user = "NL" /\
    user_data !! "user_principal_name" = Some (user_principal_name new_user) /\
    (exists s, user_principal_name new_user = PyStr s /\
               mail_nickname new_user = Text.before "@" s) /\
    String.length (password new_user) = 16 /\
    complex_enough (password new_user) = true.
Proof.
  intros Hrun.
  destruct (create_user_cases _ _ _ _ _ Hrun)
    as [(_ & -> & _) | [(_ & _ & -> & _) | [(pw & k & _ & _ & -> & _)
        | (pw & k & u & Hpw & -> & Hpassword & Henabled & Hforce & Hwhere & Hupn
           & _ & _ & Hnick & _)]]];
    try (left; reflexivity).
  right. exists u. simpl.
  destruct (generate_password_accepted _ _ _ _ _ _ Hpw) as [Hok [j Hcand]].
  rewrite Hpassword. repeat split; auto.
  rewrite Hcand. apply candidate_length.
Qed.

(** X9: [create_user] raises only for a row without the principal-name
    key, which it reads before its [try], and then it has done nothing;
    with the key present it returns the account information exactly when
    the service accepted the one request it sent, and [None] for every
    other failure (or it is still drawing passwords). *)
Theorem create_user_failures_are_returned fuel user_data w :
  (user_data !! "user_principal_name" = None ->
   create_user client entropy fuel user_data w
   = (w, Raise (KeyError "user_principal_name"))) /\
  (is_Some (user_data !! "user_principal_name") ->
   forall w' r,
     create_user client entropy fuel user_data w = (w', r) ->
     (r = Loop /\ generate_password entropy fuel default_length (drawn w) = None) \/
     (r = Ret None /\ effective_writes (log w') = effective_writes (log w)) \/
     (exists info new_user created,
        r = Ret (Some info) /\
        users_post client new_user (log w) = Ok created /\
        effective_writes (log w') = UsersPost new_user :: effective_writes (log w) /\
        info_user_id info = id created /\
        info_temp_password info = password new_user)).
Proof.
  split.
  - intros Habsent. unfold create_user, bind, subscript. now rewrite Habsent.
  - intros Hpresent w' r Hrun.
    destruct (create_user_cases _ _ _ _ _ Hrun)
      as [(Habsent & _) | [(_ & Hloop & -> & ->) | [(pw & k & _ & _ & -> & ->)
          | (pw & k & u & Hpw & -> & Hpassword & _ & _ & _ & _ & _ & _ & _ & ->)]]].
    + rewrite Habsent in Hpresent. destruct Hpresent as [? ?]. discriminate.
    + left. auto.
    + right. left. auto.
    + right. unfold effective_writes. simpl.
      destruct (users_post client u (log w)) as [created | e] eqn:Hpost; simpl.
      * right. eexists _, u, created. repeat split; auto.
      * left. auto.
Qed.

End CreationProperties.

Lemma create_user_posts_once_witness :
  exists new_user,
    write_attempts
      (log (create_user Examples.happy Examples.stride7 5 Examples.row Examples.w0).1)
    = UsersPost new_user :: write_attempts (log Examples.w0) /\
    force_change_password_next_sign_in new_user = true /\
    mail_nickname new_user = "a" /\
    password new_user = "ahovCJQX4@ahovCJ".
Proof.
  destruct (create_user Examples.happy Examples.stride7 5 Examples.row Examples.w0)
    as [w' r] eqn:Hrun.
  destruct (create_user_posts_once _ _ _ _ _ _ _ Hrun)
    as [Hnone | (u & Hone & _ & Hforce & _ & _ & _ & _ & _)].
  - vm_compute in Hrun. injection Hrun as <- _. vm_compute in Hnone. discriminate.
  - exists u. simpl. split; [exact Hone |]. split; [exact Hforce |].
    vm_compute in Hrun. injection Hrun as <- _.
    vm_compute in Hone. injection Hone as <-. split; reflexivity.
Defined.

(** ** License assignment without a SKU *)

(** X10: for a tier other than "NONE" for which [get_sku_id] yields no
    SKU (the tier is not in the mapping, the tenant does not hold its
    SKU, or the cache is not initialised, in which case the
    [RuntimeError] is caught), [assign_license] returns [False] at once:
    no remote call, no delay, no retry. *)
Theorem assign_license_without_sku client sku_cache user_id license_type upn w :
  Text.upper license_type <> "NONE" ->
  (forall sku_id, get_sku_id sku_cache license_type <> Ok (Some sku_id)) ->
  assign_license client sku_cache user_id license_type upn w = (w, Ret false).
Proof.
  intros Hnone Hsku. apply assign_license_unresolved; [| exact Hsku].
  now apply String.eqb_neq.
Qed.

Lemma assign_license_without_sku_witness :
  assign_license Examples.happy Examples.tenant_cache "u-1" "E5" (PyStr "a@x.com")
    Examples.w0 = (Examples.w0, Ret false).
Proof.
  apply (assign_license_without_sku Examples.happy Examples.tenant_cache "u-1" "E5"
           (PyStr "a@x.com") Examples.w0).
  - vm_compute. discriminate.
  - intros sku_id. vm_compute. discriminate.
Defined.

(** ** Group membership requests *)

Section GroupProperties.

Variable client : GraphServiceClient.

(** One turn sends at most one write request, the addition of this user
    to the first group found. *)
Lemma add_to_group_requests user_id group_name results w :
  exists (posts : list (string * string)) (w' : world) (results' : gmap string bool),
    add_to_group client user_id group_name results w = (w', Ret results') /\
    member_posts (log w') = (posts ++ member_posts (log w))%list /\
    write_attempts (log w')
    = (map (fun p => MembersRefPost p.1 p.2) posts ++ write_attempts (log w))%list /\
    length posts <= 1 /\
    Forall (fun p => p.2 = directory_object user_id) posts /\
    (groups_get client (display_name_filter group_name) (log w) = Ok [] ->
     posts = [] /\ results' = <[group_name := false]> results).
Proof.
  unfold add_to_group, try_except, bind, remote, ret, directory_object.
  destruct (groups_get client (display_name_filter group_name) (log w))
    as [[| group_id others] | e] eqn:Hget; simpl.
  - exists []. do 2 eexists. split; [reflexivity |]. simpl. auto 10.
  - set (odata := "https://graph.microsoft.com/v1.0/directoryObjects/" +:+ user_id).
    exists [(group_id, odata)].
    destruct (members_ref_post client group_id odata _) as [[] | e]; simpl.
    + do 2 eexists. split; [reflexivity |]. simpl.
      repeat split; auto; discriminate.
    + destruct e as [message | | | |]; simpl;
        try (do 2 eexists; split; [reflexivity |]; simpl;
             repeat split; auto; discriminate).
      destruct (Text.contains "already exist" (Text.lower message));
        do 2 eexists; (split; [reflexivity |]); simpl;
        repeat split; auto; discriminate.
  - exists [].
    destruct e as [message | | | |]; simpl;
      try (do 2 eexists; split; [reflexivity |]; simpl;
           repeat split; auto; discriminate).
    destruct (Text.contains "already exist" (Text.lower message));
      do 2 eexists; (split; [reflexivity |]); simpl;
      repeat split; auto; discriminate.
Qed.

Lemma add_to_groups_loop_requests user_id group_names results w :
  exists (posts : list (string * string)) (w' : world) (results' : gmap string bool),
    add_to_groups_loop client user_id group_names results w = (w', Ret results') /\
    member_posts (log w') = (posts ++ member_posts (log w))%list /\
    write_attempts (log w')
    = (map (fun p => MembersRefPost p.1 p.2) posts ++ write_attempts (log w))%list /\
    length posts <= length group_names /\
    Forall (fun p => p.2 = directory_object user_id) posts.
Proof.
  revert results w.
  induction group_names as [| name rest IH]; intros results w; simpl.
  - exists [], w, results. simpl. auto.
  - destruct (add_to_group_requests user_id name results w)
      as (posts1 & w1 & r1 & Hturn & Hposts1 & Hwrites1 & Hlen1 & Hall1 & _).
    unfold bind. rewrite Hturn.
    destruct (IH r1 w1) as (posts2 & w2 & r2 & Hloop & Hposts2 & Hwrites2 & Hlen2 & Hall2).
    exists (posts2 ++ posts1)%list, w2, r2. rewrite Hloop.
    split; [reflexivity |]. split; [| split; [| split]].
    + rewrite Hposts2, Hposts1. now rewrite app_assoc.
    + rewrite Hwrites2, Hwrites1, map_app. now rewrite app_assoc.
    + rewrite length_app. lia.
    + apply Forall_app. auto.
Qed.

(** X11: the only requests [add_to_groups] sends that change anything
    are membership additions, at most one per input name, and each of
    them adds the directory object of the given user, nobody else. *)
Theorem add_to_groups_adds_only_this_user user_id (group_names : list string) upn w :
  exists (posts : list (string * string)) (w' : world) (results : gmap string bool),
    add_to_groups client user_id group_names upn w = (w', Ret results) /\
    write_attempts (log w')
    = (map (fun p => MembersRefPost p.1 p.2) posts ++ write_attempts (log w))%list /\
    length posts <= length group_names /\
    Forall (fun p => p.2 = directory_object user_id) posts.
Proof.
  rewrite add_to_groups_is_loop.
  destruct (add_to_groups_loop_requests user_id group_names ∅ w)
    as (posts & w' & results & Hloop & _ & Hwrites & Hlen & Hall).
  exists posts, w', results. auto.
Qed.

Lemma add_to_groups_loop_unknown user_id group_names results w :
  (forall f h, groups_get client f h = Ok []) ->
  exists (w' : world) (results' : gmap string bool),
    add_to_groups_loop client user_id group_names results w = (w', Ret results') /\
    write_attempts (log w') = write_attempts (log w) /\
    (forall name, name ∈ group_names -> results' !! name = Some false) /\
    (forall name, name ∉ group_names -> results' !! name = results !! name).
Proof.
  intros Hnone. revert results w.
  induction group_names as [| name rest IH]; intros results w; simpl.
  - exists w, results. repeat split; auto. intros name Hin. set_solver.
  - destruct (add_to_group_requests user_id name results w)
      as (posts1 & w1 & r1 & Hturn & _ & Hwrites1 & _ & _ & Hempty).
    destruct (Hempty (Hnone _ _)) as [-> ->]. simpl in Hwrites1.
    unfold bind. rewrite Hturn.
    destruct (IH (<[name := false]> results) w1)
      as (w2 & r2 & Hloop & Hwrites2 & Hfalse & Hframe).
    exists w2, r2. rewrite Hloop. split; [reflexivity |].
    split; [congruence |]. split.
    + intros n Hin. destruct (decide (n ∈ rest)) as [Hrest | Hrest].
      * now apply Hfalse.
      * rewrite (Hframe n Hrest).
        apply elem_of_cons in Hin as [-> | Hin]; [| contradiction].
        apply lookup_insert_eq.
    + intros n Hn. apply not_elem_of_cons in Hn as [Hne Hn].
      rewrite (Hframe n Hn). now apply lookup_insert_ne.
Qed.

(** X12: when the directory finds no group under any of the names,
    [add_to_groups] maps every input name to [False] and sends no
    membership request at all. *)
Theorem add_to_groups_unknown_groups user_id (group_names : list string) upn w :
  (forall f h, groups_get client f h = Ok []) ->
  exists (w' : world) (results : gmap string bool),
    add_to_groups client user_id group_names upn w = (w', Ret results) /\
    write_attempts (log w') = write_attempts (log w) /\
    dom results = list_to_set group_names /\
    forall name, name ∈ group_names -> results !! name = Some false.
Proof.
  intros Hnone. rewrite add_to_groups_is_loop.
  destruct (add_to_groups_loop_unknown user_id group_names ∅ w Hnone)
    as (w' & results & Hloop & Hwrites & Hfalse & _).
  destruct (add_to_groups_loop_total client user_id group_names ∅ w)
    as (results' & w'' & Hloop' & _ & Hdom & _).
  rewrite Hloop in Hloop'. injection Hloop' as <- <-.
  exists w', results. repeat split; auto.
  rewrite Hdom. set_solver.
Qed.

(** [configure_mailbox] sends exactly one request, the update of
    the user's time zone to "W. Europe Standard Time", and returns
    whether it went through; the tier, the principal name and the
    delegate address make no difference to what is sent or returned. *)
Lemma configure_mailbox_one_update user_id license_type upn delegation_email w :
  configure_mailbox client user_id license_type upn delegation_email w
  = (record (Call (UserPatch user_id "W. Europe Standard Time")
               (raised_by (user_patch client user_id "W. Europe Standard Time" (log w))))
       w,
     Ret match user_patch client user_id "W. Europe Standard Time" (log w) with
         | Ok _ => true
         | Err _ => false
         end) /\
  forall license_type' upn' delegation_email',
    configure_mailbox client user_id license_type' upn' delegation_email' w
    = configure_mailbox client user_id license_type upn delegation_email w.
Proof.
  split; [| reflexivity].
  unfold configure_mailbox, try_except, bind, remote, ret.
  destruct (user_patch client user_id _ (log w)) as [[] | e]; reflexivity.
Qed.

End GroupProperties.

Lemma add_to_groups_unknown_groups_witness :
  exists (w' : world) (results : gmap string bool),
    add_to_groups Examples.best_effort_failing "u-1" ["Sales"; "IT"] (PyStr "a@x.com")
      Examples.w0 = (w', Ret results) /\
    write_attempts (log w') = write_attempts (log Examples.w0) /\
    dom results = list_to_set ["Sales"; "IT"] /\
    forall name, name ∈ ["Sales"; "IT"] -> results !! name = Some false.
Proof.
  apply (add_to_groups_unknown_groups Examples.best_effort_failing "u-1"
           ["Sales"; "IT"] (PyStr "a@x.com") Examples.w0).
  reflexivity.
Defined.

(** ** Group names read from a row *)

Lemma lstrip_no_leading_space s : starts_with_space (Text.lstrip s) = false.
Proof.
  induction s as [| c s IH]; simpl; [reflexivity |].
  destruct (Text.isspace c) eqn:Hc; [exact IH | simpl; exact Hc].
Qed.

Lemma rstrip_no_trailing_space s : ends_with_space (Text.rstrip s) = false.
Proof.
  induction s as [| c s IH]; simpl; [reflexivity |].
  destruct (Text.rstrip s) as [| d r] eqn:Hr.
  - destruct (Text.isspace c) eqn:Hc; simpl; [reflexivity | exact Hc].
  - exact IH.
Qed.

Lemma rstrip_keeps_head s :
  starts_with_space s = false -> starts_with_space (Text.rstrip s) = false.
Proof.
  destruct s as [| c s]; simpl; [reflexivity |]. intros Hc.
  destruct (Text.rstrip s); [rewrite Hc |]; simpl; exact Hc.
Qed.

Lemma lstrip_has_char c s :
  Text.has_char c (Text.lstrip s) = true -> Text.has_char c s = true.
Proof.
  unfold Text.has_char. induction s as [| d s IH]; simpl; [discriminate |].
  destruct (Text.isspace d); simpl.
  - intros H. rewrite (IH H). apply orb_true_r.
  - auto.
Qed.

Lemma rstrip_has_char c s :
  Text.has_char c (Text.rstrip s) = true -> Text.has_char c s = true.
Proof.
  unfold Text.has_char. induction s as [| d s IH]; simpl; [discriminate |].
  destruct (Text.rstrip s) as [| e r] eqn:Hr.
  - destruct (Text.isspace d); simpl; [discriminate |].
    rewrite orb_false_r. intros ->. reflexivity.
  - simpl in *. intros H. apply orb_prop in H as [-> | H]; [reflexivity |].
    rewrite (IH H). apply orb_true_r.
Qed.

Lemma split_pieces_without_separator sep s piece :
  piece ∈ Text.split sep s -> Text.has_char sep piece = false.
Proof.
  unfold Text.has_char. revert piece.
  induction s as [| c s IH]; intros piece; simpl.
  - intros Hin. apply list_elem_of_singleton in Hin as ->. reflexivity.
  - destruct (Ascii.eqb c sep) eqn:Hc.
    + intros Hin. apply elem_of_cons in Hin as [-> | Hin]; [reflexivity | now apply IH].
    + destruct (Text.split sep s) as [| h t] eqn:Hsplit.
      * intros Hin. apply list_elem_of_singleton in Hin as ->. simpl.
        rewrite Ascii.eqb_sym, Hc. reflexivity.
      * intros Hin. apply elem_of_cons in Hin as [-> | Hin].
        -- simpl. rewrite Ascii.eqb_sym, Hc. simpl. apply IH. set_solver.
        -- apply IH. set_solver.
Qed.

(** X13: every group name [onboard_user] reads from the groups cell is
    non-empty, has no white space at either end and contains no ";":
    empty pieces are dropped and the rest are stripped. *)
Theorem parse_groups_names_are_clean groups_str name :
  name ∈ parse_groups groups_str ->
  name <> "" /\
  starts_with_space name = false /\
  ends_with_space name = false /\
  Text.has_char ";" name = false.
Proof.
  unfold parse_groups. intros Hin.
  apply list_elem_of_filter in Hin as [Hne Hin].
  apply list_elem_of_In, in_map_iff in Hin as (piece & <- & Hpiece).
  apply list_elem_of_In in Hpiece.
  split; [exact Hne |]. unfold Text.strip. split; [| split].
  - apply rstrip_keeps_head, lstrip_no_leading_space.
  - apply rstrip_no_trailing_space.
  - destruct (Text.has_char ";" (Text.rstrip (Text.lstrip piece))) eqn:Hsep;
      [| reflexivity].
    apply rstrip_has_char, lstrip_has_char in Hsep.
    now rewrite (split_pieces_without_separator _ _ _ Hpiece) in Hsep.
Qed.

Lemma parse_groups_names_are_clean_witness :
  parse_groups " Sales ;; IT Support; " = ["Sales"; "IT Support"] /\
  "IT Support" <> "" /\
  starts_with_space "IT Support" = false /\
  ends_with_space "IT Support" = false /\
  Text.has_char ";" "IT Support" = false.
Proof.
  assert (Hparse : parse_groups " Sales ;; IT Support; " = ["Sales"; "IT Support"])
    by (vm_compute; reflexivity).
  split; [exact Hparse |].
  apply (parse_groups_names_are_clean " Sales ;; IT Support; " "IT Support").
  rewrite Hparse. set_solver.
Defined.

(** ** More on the orchestrator *)

Section OrchestratorProperties.

Variable client : GraphServiceClient.
Variable sku_cache : option (gmap string string).
Variable entropy : nat -> nat.

(** Up to the end of the license step the history holds one more
    accepted account creation than before. *)
Lemma one_account_until_license fuel user_data w w1 errs w2 info user_id
    license_type upn w3 b :
  validate_user_data client user_data w = (w1, Ret (true, errs)) ->
  create_user client entropy fuel user_data w1 = (w2, Ret (Some info)) ->
  assign_license client sku_cache user_id license_type upn (record (Sleep 2) w2)
    = (w3, Ret b) ->
  exists new_user k,
    accounts_created (log w3) = new_user :: accounts_created (log w) /\
    generate_password entropy fuel default_length (drawn w1)
    = Some (password new_user, k) /\
    info_temp_password info = password new_user /\
    force_change_password_next_sign_in new_user = true.
Proof.
  intros Hval Hcreate Hassign.
  destruct (create_user_created _ _ _ _ _ _ _ Hcreate)
    as (new_user & created & k & Hpw & _ & Hlog & _ & Htemp & Hforce).
  exists new_user, k. split; [| auto].
  unfold accounts_created.
  rewrite (silent_step created_account_of _ _ _ _
             (assign_license_silent client sku_cache created_account_of _ _ _
                (fun _ _ _ => eq_refl) (fun _ => eq_refl)) Hassign).
  simpl. rewrite Hlog. simpl. f_equal.
  exact (silent_step created_account_of _ _ _ _
           (validate_user_data_silent client created_account_of _
              (fun _ _ => eq_refl)) Hval).
Qed.

Lemma listing_is_no_effective_write f o :
  effective_write_of (Call (UsersGet f) o) = None.
Proof. destruct o; reflexivity. Qed.

(** X14: when the result says no account was created, nothing was
    changed in the directory: the run sent no request that changes
    anything, except at most one account creation that the service
    refused; the result is a failure with its reasons, no license, no
    group, no mailbox and no password. *)
Theorem onboard_user_without_account_changes_nothing fuel user_data w w' r :
  onboard_user client sku_cache entropy fuel user_data w = (w', Ret r) ->
  user_created r = false ->
  effective_writes (log w') = effective_writes (log w) /\
  (write_attempts (log w') = write_attempts (log w) \/
   exists new_user,
     write_attempts (log w') = UsersPost new_user :: write_attempts (log w)) /\
  success r = false /\ license_assigned r = false /\
  groups_added r = ∅ /\ mailbox_configured r = false /\
  temp_password r = None /\ errors r <> [].
Proof.
  intros Hrun. apply onboard_user_run in Hrun.
  destruct Hrun as
    [ w1 errs Hval
    | w1 errs w2 Hval Hcreate
    | w1 errs w2 info license_type w3 raised Hval Hcreate Hcell Hassign
    | w1 errs w2 info license_type w3 Hval Hcreate Hcell Hassign Hgroups
    | w1 errs w2 info license_type w3 groups_cell w4 groups raised configured
        Hval Hcreate Hcell Hassign Hgroups Hstep ];
    simpl; try discriminate; intros _.
  - split; [| split].
    + exact (silent_step effective_write_of _ _ _ _
               (validate_user_data_silent client effective_write_of _
                  listing_is_no_effective_write) Hval).
    + left.
      exact (silent_step write_attempt_of _ _ _ _
               (validate_user_data_silent client write_attempt_of _
                  (fun _ _ => eq_refl)) Hval).
    + repeat split; auto. intros Hnil.
      apply (validate_user_data_flag _ _ _ _ _ _ Hval) in Hnil. discriminate.
  - pose proof (silent_step effective_write_of _ _ _ _
                  (validate_user_data_silent client effective_write_of _
                     listing_is_no_effective_write) Hval) as Heff.
    pose proof (silent_step write_attempt_of _ _ _ _
                  (validate_user_data_silent client write_attempt_of _
                     (fun _ _ => eq_refl)) Hval) as Hatt.
    unfold effective_writes, write_attempts.
    destruct (create_user_cases _ _ _ _ _ _ _ Hcreate)
      as [(_ & _ & Hr) | [(_ & _ & _ & Hr) | [(pw & k & _ & _ & -> & _)
          | (pw & k & u & _ & -> & _ & _ & _ & _ & _ & _ & _ & _ & Hr)]]];
      try discriminate; simpl.
    + split; [exact Heff |]. split; [left; exact Hatt |].
      repeat split; auto; discriminate.
    + destruct (users_post client u (log w1)) as [created | e]; [discriminate |].
      simpl. split; [exact Heff |].
      split; [right; exists u; f_equal; exact Hatt |].
      repeat split; auto; discriminate.
Qed.

Lemma groups_text_is_not_none user_data groups_cell :
  dict_get_default user_data "groups" (PyStr "") = PyStr groups_cell ->
  user_data !! "groups" <> Some PyNone.
Proof.
  unfold dict_get_default. intros Hcell Hnone. rewrite Hnone in Hcell. discriminate.
Qed.

(** X15: a groups cell holding [None] (a CSV row that ends before the
    groups column) stops the run after the license was assigned: the
    result reports a failure with one "Unexpected error" message, but
    the account created for the row stays in the directory: no deletion
    is sent, no group is looked up and no mailbox is updated. *)
Theorem unreadable_groups_cell_leaves_the_account fuel user_data w w' r :
  onboard_user client sku_cache entropy fuel user_data w = (w', Ret r) ->
  user_data !! "groups" = Some PyNone ->
  license_assigned r = true ->
  success r = false /\ user_created r = true /\
  errors r = ["Unexpected error during onboarding: "
              +:+ "'NoneType' object has no attribute 'strip'"] /\
  (exists new_user,
     accounts_created (log w') = new_user :: accounts_created (log w) /\
     temp_password r = Some (password new_user)) /\
  rollbacks (log w') = rollbacks (log w) /\
  group_lookups (log w') = group_lookups (log w) /\
  mailbox_updates (log w') = mailbox_updates (log w).
Proof.
  intros Hrun Hnone. apply onboard_user_run in Hrun.
  destruct Hrun as
    [ w1 errs Hval
    | w1 errs w2 Hval Hcreate
    | w1 errs w2 info license_type w3 raised Hval Hcreate Hcell Hassign
    | w1 errs w2 info license_type w3 Hval Hcreate Hcell Hassign Hgroups
    | w1 errs w2 info license_type w3 groups_cell w4 groups raised configured
        Hval Hcreate Hcell Hassign Hgroups Hstep ];
    simpl; try discriminate; intros _.
  2: { exfalso. exact (groups_text_is_not_none _ _ Hgroups Hnone). }
  destruct (one_account_until_license _ _ _ _ _ _ _ _ _ _ _ _ Hval Hcreate Hassign)
    as (new_user & k & Hone & _ & Htemp & _).
  split; [reflexivity |]. split; [reflexivity |]. split; [reflexivity |].
  split; [exists new_user; split; [exact Hone | now rewrite Htemp] |].
  split; [| split].
  - now apply (quiet_until_license client sku_cache entropy rollback_of fuel user_data
                 w w1 errs w2 info (info_user_id info) license_type
                 (reported_upn user_data) w3 true).
  - now apply (quiet_until_license client sku_cache entropy
                 (fun e => match e with Call (GroupsGet f) _ => Some f | _ => None end)
                 fuel user_data w w1 errs w2 info (info_user_id info) license_type
                 (reported_upn user_data) w3 true).
  - now apply (quiet_until_license client sku_cache entropy mailbox_update_of fuel
                 user_data w w1 errs w2 info (info_user_id info) license_type
                 (reported_upn user_data) w3 true).
Qed.

(** X16: a successful result belongs to exactly one account created
    during the run and never deleted; its [temp_password] is the
    password sent for that account, which has 16 characters, passes the
    complexity test and must be changed at the next sign-in; and its
    error list is empty. *)
Theorem successful_result_describes_its_account fuel user_data w w' r :
  onboard_user client sku_cache entropy fuel user_data w = (w', Ret r) ->
  success r = true ->
  errors r = [] /\
  rollbacks (log w') = rollbacks (log w) /\
  exists new_user,
    accounts_created (log w') = new_user :: accounts_created (log w) /\
    temp_password r = Some (password new_user) /\
    String.length (password new_user) = 16 /\
    complex_enough (password new_user) = true /\
    force_change_password_next_sign_in new_user = true.
Proof.
  intros Hrun. apply onboard_user_run in Hrun.
  destruct Hrun as
    [ w1 errs Hval
    | w1 errs w2 Hval Hcreate
    | w1 errs w2 info license_type w3 raised Hval Hcreate Hcell Hassign
    | w1 errs w2 info license_type w3 Hval Hcreate Hcell Hassign Hgroups
    | w1 errs w2 info license_type w3 groups_cell w4 groups raised configured
        Hval Hcreate Hcell Hassign Hgroups Hstep ];
    simpl; try discriminate; intros _.
  destruct (one_account_until_license _ _ _ _ _ _ _ _ _ _ _ _ Hval Hcreate Hassign)
    as (new_user & k & Hone & Hpw & Htemp & Hforce).
  destruct (generate_password_accepted _ _ _ _ _ _ Hpw) as [Hok [j Hcand]].
  split; [reflexivity |]. split.
  - unfold rollbacks. simpl.
    rewrite (silent_step rollback_of _ _ _ _
               (group_step_silent client rollback_of user_data _ _
                  (fun _ _ => eq_refl) (fun _ _ _ => eq_refl)) Hstep).
    now apply (quiet_until_license client sku_cache entropy rollback_of fuel user_data
                 w w1 errs w2 info (info_user_id info) license_type
                 (reported_upn user_data) w3 true).
  - exists new_user. unfold accounts_created. simpl.
    rewrite (silent_step created_account_of _ _ _ _
               (group_step_silent client created_account_of user_data _ _
                  (fun _ _ => eq_refl) (fun _ _ _ => eq_refl)) Hstep).
    split; [exact Hone |]. split; [now rewrite Htemp |].
    split; [rewrite Hcand; apply candidate_length |]. auto.
Qed.

(** Past validation the run cannot raise or, once the password is drawn,
    loop. *)
Lemma onboard_user_returns_from fuel user_data w :
  user_data !! "license_type" <> Some PyNone ->
  generate_password entropy fuel default_length (drawn w) <> None ->
  exists w' r,
    onboard_user client sku_cache entropy fuel user_data w = (w', Ret r).
Proof.
  intros Hcell Hloop.
  destruct (validate_user_data_returns client user_data w Hcell)
    as (w1 & valid & errs & Hval).
  pose proof (validate_user_data_draws_nothing client user_data w) as Hdrawn.
  rewrite Hval in Hdrawn. simpl in Hdrawn.
  unfold onboard_user, bind. rewrite Hval.
  destruct valid; simpl; [| unfold ret; eauto].
  destruct (validate_user_data_license _ _ _ _ _ Hval) as (license_type & Hlic & _).
  destruct (create_user client entropy fuel user_data w1) as [w2 created] eqn:Hcreate.
  assert (Hcreated : exists o, created = Ret o).
  { destruct (create_user_cases _ _ _ _ _ _ _ Hcreate)
      as [(Habsent & _) | [(_ & Hnone & _) | [(pw & k & _ & _ & _ & ->)
          | (pw & k & u & _ & _ & _ & _ & _ & _ & _ & _ & _ & _ & ->)]]]; eauto.
    - exfalso.
      assert (Herrs : errs = [])
        by (now apply (validate_user_data_flag _ _ _ _ _ _ Hval)).
      subst errs.
      destruct (validate_user_data_pieces _ _ _ _ _ _ Hval)
        as (duplicate & manager & lt & wm & _ & _ & _ & Hall & _).
      symmetry in Hall. unfold all_errors in Hall.
      do 4 (apply app_eq_nil in Hall as [Hall _]).
      destruct (truthy_text _ _ (check_required_upn _ Hall)) as (s0 & Hs & _).
      congruence.
    - exfalso. rewrite Hdrawn in Hnone. contradiction. }
  destruct Hcreated as (o & ->).
  destruct o as [info |]; [| unfold ret; eauto].
  unfold sleep, guarded, subscript. rewrite Hlic. simpl.
  destruct (assign_license_total client sku_cache (info_user_id info) license_type
              (dict_get_default user_data "user_principal_name" (PyStr "Unknown"))
              (record (Sleep 2) w2)) as (w3 & assigned & ->).
  destruct assigned; simpl.
  - destruct (dict_get_default user_data "groups" (PyStr "")) as [| groups_cell];
      simpl; [eauto |].
    match goal with
    | |- context [(if ?c then ?a else ?b) w3] =>
        assert (Hstep : exists w4 groups, (if c then a else b) w3 = (w4, Ret groups))
    end.
    { destruct (String.eqb _ _); [unfold ret; eauto | apply add_to_groups_total]. }
    destruct Hstep as (w4 & groups & ->).
    destruct (configure_mailbox_once client (info_user_id info) license_type
                (dict_get_default user_data "user_principal_name" (PyStr "Unknown"))
                (dict_get user_data "mailbox_delegation") w4)
      as (configured & raised & ->).
    unfold ret. eauto.
  - destruct (rollback_user_creation_once client (info_user_id info)
                (dict_get_default user_data "user_principal_name" (PyStr "Unknown")) w3)
      as (raised & ->).
    unfold ret. eauto.
Qed.

(** X17: for a row whose license cell is text or absent, and entropy
    with which the password loop ends, [onboard_user] returns a result
    whatever the remote calls answer or raise: no exception leaves it,
    and the result lists at least one error exactly when it is not a
    success. *)
Theorem onboard_user_turns_failures_into_results fuel user_data w :
  user_data !! "license_type" <> Some PyNone ->
  generate_password entropy fuel default_length (drawn w) <> None ->
  exists w' r,
    onboard_user client sku_cache entropy fuel user_data w = (w', Ret r) /\
    (success r = false -> errors r <> []) /\
    (success r = true -> errors r = []).
Proof.
  intros Hcell Hloop.
  destruct (onboard_user_returns_from fuel user_data w Hcell Hloop) as (w' & r & Hrun).
  exists w', r. split; [exact Hrun |].
  exact (onboard_user_errors client sku_cache entropy _ _ _ _ _ Hrun).
Qed.

End OrchestratorProperties.

Lemma onboard_user_without_account_changes_nothing_witness :
  effective_writes (log (Examples.final_world MoreExamples.not_created_run))
  = effective_writes (log Examples.w0) /\
  errors (Examples.final_result MoreExamples.not_created_run) = ["User creation failed"].
Proof.
  destruct (onboard_user_without_account_changes_nothing MoreExamples.not_creating
              Examples.tenant_cache Examples.stride7 5 Examples.row Examples.w0
              (Examples.final_world MoreExamples.not_created_run)
              (Examples.final_result MoreExamples.not_created_run))
    as (Hnothing & _); [vm_compute; reflexivity | vm_compute; reflexivity |].
  split; [exact Hnothing | vm_compute; reflexivity].
Defined.

Lemma unreadable_groups_cell_leaves_the_account_witness :
  success (Examples.final_result MoreExamples.dangling_run) = false /\
  user_created (Examples.final_result MoreExamples.dangling_run) = true /\
  rollbacks (log (Examples.final_world MoreExamples.dangling_run))
  = rollbacks (log Examples.w0).
Proof.
  destruct (unreadable_groups_cell_leaves_the_account Examples.happy
              Examples.tenant_cache Examples.stride7 5 MoreExamples.no_groups_cell
              Examples.w0
              (Examples.final_world MoreExamples.dangling_run)
              (Examples.final_result MoreExamples.dangling_run))
    as (Hfailed & Hcreated & _ & _ & Hkept & _);
    [vm_compute; reflexivity | reflexivity | vm_compute; reflexivity |].
  auto.
Defined.

Lemma successful_result_describes_its_account_witness :
  errors (Examples.final_result MoreExamples.happy_run) = [] /\
  rollbacks (log (Examples.final_world MoreExamples.happy_run))
  = rollbacks (log Examples.w0) /\
  exists new_user,
    accounts_created (log (Examples.final_world MoreExamples.happy_run))
    = new_user :: accounts_created (log Examples.w0) /\
    temp_password (Examples.final_result MoreExamples.happy_run)
    = Some (password new_user) /\
    String.length (password new_user) = 16 /\
    complex_enough (password new_user) = true /\
    force_change_password_next_sign_in new_user = true.
Proof.
  apply (successful_result_describes_its_account Examples.happy Examples.tenant_cache
           Examples.stride7 5 Examples.row Examples.w0).
  - vm_compute. reflexivity.
  - vm_compute. reflexivity.
Defined.

Lemma onboard_user_turns_failures_into_results_witness :
  exists w' r,
    onboard_user MoreExamples.not_creating Examples.tenant_cache Examples.stride7 5
      Examples.row Examples.w0 = (w', Ret r) /\
    (success r = false -> errors r <> []) /\
    (success r = true -> errors r = []).
Proof.
  apply (onboard_user_turns_failures_into_results MoreExamples.not_creating
           Examples.tenant_cache Examples.stride7 5 Examples.row Examples.w0).
  - vm_compute. discriminate.
  - vm_compute. discriminate.
Defined.

(** ** The batch runner *)




Section BatchProperties.

Variable client : GraphServiceClient.
Variable sku_cache : option (gmap string string).
Variable entropy : nat -> nat.
Variable fuel : nat.

Context {X : Type} (obs : event -> option X).
Hypothesis obs_ignores_calls : forall r o, obs (Call r o) = None.
Hypothesis obs_ignores_long_sleeps : forall n, 2 <= n -> obs (Sleep n) = None.



End BatchProperties.


Section BatchTheorems.

Variable client : GraphServiceClient.
Variable sku_cache : option (gmap string string).
Variable entropy : nat -> nat.
Variable fuel : nat.









End BatchTheorems.






(** ** Running the batch again *)

Section Rerun.

Variable client : GraphServiceClient.
Variable sku_cache : option (gmap string string).
Variable entropy : nat -> nat.

Lemma duplicate_is_reported user_data w w' valid errs existing :
  validate_user_data client user_data w = (w', Ret (valid, errs)) ->
  users_get client None (log w) = Ok existing ->
  proposed_upn user_data ∈ existing ->
  valid = false /\
  ("User already exists: " +:+ str (proposed_upn user_data)) ∈ errs.
Proof.
  intros Hval Hlist Hin.
  destruct (validate_user_data_pieces _ _ _ _ _ _ Hval)
    as (duplicate & manager & lt & w1 & Hdup & _ & _ & -> & ->).
  rewrite check_duplicate_cases, Hlist in Hdup.
  rewrite bool_decide_eq_true_2 in Hdup by exact Hin.
  injection Hdup as _ <-.
  assert (Hmsg : ("User already exists: " +:+ str (proposed_upn user_data))
                 ∈ all_errors user_data
                     ["User already exists: " +:+ str (proposed_upn user_data)]
                     manager lt)
    by (apply all_errors_complete; right; right; left; set_solver).
  split; [| exact Hmsg].
  destruct (all_errors _ _ _ _); [set_solver | reflexivity].
Qed.

(** X22: a row whose principal name the directory listing already holds
    is turned down before anything is sent: [onboard_user] returns a
    failure that lists "User already exists", creates no account and
    sends no request that changes the directory, so running a batch
    again does not create the accounts of the first run a second time. *)
Theorem taken_principal_is_not_created fuel user_data w w' r existing :
  onboard_user client sku_cache entropy fuel user_data w = (w', Ret r) ->
  users_get client None (log w) = Ok existing ->
  proposed_upn user_data ∈ existing ->
  success r = false /\ user_created r = false /\
  ("User already exists: " +:+ str (proposed_upn user_data)) ∈ errors r /\
  write_attempts (log w') = write_attempts (log w).
Proof.
  intros Hrun Hlist Hin. apply onboard_user_run in Hrun.
  destruct Hrun as
    [ w1 errs Hval
    | w1 errs w2 Hval Hcreate
    | w1 errs w2 info license_type w3 raised Hval Hcreate Hcell Hassign
    | w1 errs w2 info license_type w3 Hval Hcreate Hcell Hassign Hgroups
    | w1 errs w2 info license_type w3 groups_cell w4 groups raised configured
        Hval Hcreate Hcell Hassign Hgroups Hstep ];
    destruct (duplicate_is_reported _ _ _ _ _ _ Hval Hlist Hin) as [Hflag Hmsg];
    try discriminate.
  simpl. repeat split; auto.
  exact (silent_step write_attempt_of _ _ _ _
           (validate_user_data_silent client write_attempt_of _
              (fun _ _ => eq_refl)) Hval).
Qed.

End Rerun.

Lemma taken_principal_is_not_created_witness :
  success (Examples.final_result MoreExamples.taken_run) = false /\
  user_created (Examples.final_result MoreExamples.taken_run) = false /\
  "User already exists: a@x.com" ∈ errors (Examples.final_result MoreExamples.taken_run) /\
  write_attempts (log (Examples.final_world MoreExamples.taken_run))
  = write_attempts (log Examples.w0).
Proof.
  apply (taken_principal_is_not_created MoreExamples.holding_a Examples.tenant_cache
           Examples.stride7 5 Examples.row Examples.w0
           (Examples.final_world MoreExamples.taken_run)
           (Examples.final_result MoreExamples.taken_run) [PyStr "a@x.com"]).
  - vm_compute. reflexivity.
  - reflexivity.
  - change (proposed_upn Examples.row) with (PyStr "a@x.com"). set_solver.
Defined.
